(** * The HTTP transport of the MCP legal server: sessions and message framing

    A shallow embedding of [src/http-server.ts]: the JSON-RPC message
    classifier, the session store with its idle sweep, the request
    dispatcher and the POST handler of the MCP endpoint, followed by the
    properties the specification states about them.

    Conventions.
    - A decoded JSON value is a [jsval]; JavaScript's [undefined] is the
      [None] of an [option jsval]. The server carries JSON numbers around
      and never computes with them: integers stand for the finite ones,
      and the two infinities [JSON.parse] gives for a literal too large
      for a double are values of their own, since [JSON.stringify] does
      not print them back.
    - A [throw] is the [Throw] of [res]; the handler code runs in the
      state-and-exception monad [M] over the [World] (mutations made before
      a throw stay, as in JavaScript).
    - The session objects live in a heap and the [sessions] map holds
      references to them, so that a mutation through a loaded reference is
      seen through the map, as it is in the source.
    - The platform (clock, identifier generator, JSON parser, tool service,
      protocol constants of the SDK) is a [Platform] record the development
      is parameterised by.
    - An [async] function runs up to its first [await] when it is called:
      the tasks of a batch are started one after the other, in the order of
      the requests, and every effect of a dispatch on the session store
      happens then. What is left open is the order in which the tasks
      settle and write their frames: any awaited task may be next. This
      covers every schedule of the event loop.
    - Logging is not modelled. *)

From Stdlib Require Import Ascii String.
From stdpp Require Import gmap strings list fin_maps pretty.

#[local] Set Warnings "-register-all".
#[local] Open Scope Z_scope.

(** ** JSON values and the JavaScript operations the server applies to them *)

(** A number as [JSON.parse] returns it: finite, or an infinity (the
    literal [1e400] is read as [Infinity]). The two zeros, which [===]
    does not tell apart and [JSON.stringify] prints alike, are one. *)
Inductive number : Type :=
  | Finite (n : Z)
  | Infinite (negative : bool).

Coercion Finite : Z >-> number.

Inductive jsval : Type :=
  | JNull
  | JBool (b : bool)
  | JNum (n : number)
  | JStr (s : string)
  | JArr (items : list jsval)
  | JObj (fields : gmap string jsval).

(** What the server can throw: its two error classes, and anything else
    (a [TypeError] of the runtime, a failure raised by a tool). *)
Inductive exn : Type :=
  | HttpError (status : Z) (message : string)
  | RpcError (code : Z) (message : string)
  | JsError (message : string).

Inductive res (A : Type) : Type :=
  | Ok (a : A)
  | Throw (e : exn).
Arguments Ok {A} a.
Arguments Throw {A} e.

#[global] Instance res_ret : MRet res := λ A a, Ok a.
#[global] Instance res_bind : MBind res := λ A B f m,
  match m with
  | Ok a => f a
  | Throw e => Throw e
  end.

#[global] Instance res_fmap : FMap res := λ A B f m,
  match m with
  | Ok a => Ok (f a)
  | Throw e => Throw e
  end.

(** [v.k]. Reading a property of [null] throws; numbers, strings, booleans
    and arrays are boxed and have none of the properties the server reads
    ([method], [id], [params], [protocolVersion], [name], [arguments]). *)
Definition js_get (v : jsval) (k : string) : res (option jsval) :=
  match v with
  | JNull => Throw (JsError "TypeError: cannot read properties of null")
  | JObj fields => Ok (fields !! k)
  | _ => Ok None
  end.

(** [v?.k], on a value that may be [undefined]. *)
Definition js_get_opt (v : option jsval) (k : string) : option jsval :=
  match v with
  | Some (JObj fields) => fields !! k
  | _ => None
  end.

(** ['id' in v]: the operator accepts objects only. *)
Definition js_in_id (v : jsval) : res bool :=
  match v with
  | JObj fields => Ok (bool_decide (is_Some (fields !! "id")))
  | JArr _ => Ok false
  | _ => Throw (JsError "TypeError: cannot use 'in' operator")
  end.

(** [typeof v === 'string'] *)
Definition is_string (v : option jsval) : bool :=
  match v with
  | Some (JStr _) => true
  | _ => false
  end.

(** [v === s] for a string literal [s] *)
Definition is_str (v : option jsval) (s : string) : bool :=
  match v with
  | Some (JStr t) => String.eqb t s
  | _ => false
  end.

(** String conversion of a template literal (of an integer, its digits:
    below [1e21], where JavaScript prints a number in full). *)
Fixpoint js_String (v : jsval) : string :=
  match v with
  | JNull => "null"
  | JBool true => "true"
  | JBool false => "false"
  | JNum (Finite n) => pretty n
  | JNum (Infinite false) => "Infinity"
  | JNum (Infinite true) => "-Infinity"
  | JStr s => s
  | JArr items =>
      String.concat ","
        (map (λ x, match x with JNull => "" | _ => js_String x end) items)
  | JObj _ => "[object Object]"
  end.

Definition js_template (v : option jsval) : string :=
  match v with
  | None => "undefined"
  | Some x => js_String x
  end.

(** [JSON.parse(JSON.stringify(v))]: a value as the reader of the text
    [JSON.stringify] prints of it gets it back. JSON has no number that is
    not finite: an infinity is printed [null], wherever it stands. *)
Fixpoint printed (v : jsval) : jsval :=
  match v with
  | JNum (Infinite _) => JNull
  | JArr items => JArr (map printed items)
  | JObj fields => JObj (printed <$> fields)
  | _ => v
  end.


(** [s.toLowerCase()], on the Latin-1 text of a header value, where only
    the ASCII letters can turn into the ASCII letters of the media types
    looked for. *)
Definition ascii_lower (c : ascii) : ascii :=
  let n := nat_of_ascii c in
  if ((65 <=? n) && (n <=? 90))%nat then ascii_of_nat (n + 32) else c.

Fixpoint toLowerCase (s : string) : string :=
  match s with
  | EmptyString => EmptyString
  | String c rest => String (ascii_lower c) (toLowerCase rest)
  end.

(** [s.includes(needle)] *)
Definition includes (s needle : string) : bool :=
  match String.index 0 needle s with
  | Some _ => true
  | None => false
  end.

(** ** The message classifier *)

Definition isRequest (message : jsval) : res bool :=
  method ← js_get message "method";
  if is_string method then js_in_id message else Ok false.

Definition isNotification (message : jsval) : res bool :=
  method ← js_get message "method";
  if is_string method then negb <$> js_in_id message else Ok false.

Record Partition := {
  requests : list jsval;
  notifications : list jsval;
  responses : list jsval }.

(** The loop of [partitionMessages], each message pushed at the end of the
    sequence it belongs to. *)
Fixpoint partition_loop (messages : list jsval) (acc : Partition) : res Partition :=
  match messages with
  | [] => Ok acc
  | message :: rest =>
      req ← isRequest message;
      if req : bool then
        partition_loop rest
          {| requests := requests acc ++ [message];
             notifications := notifications acc;
             responses := responses acc |}
      else
        notif ← isNotification message;
        if notif : bool then
          partition_loop rest
            {| requests := requests acc;
               notifications := notifications acc ++ [message];
               responses := responses acc |}
        else
          partition_loop rest
            {| requests := requests acc;
               notifications := notifications acc;
               responses := responses acc ++ [message] |}
  end.

Definition partitionMessages (messages : list jsval) : res Partition :=
  partition_loop messages
    {| requests := []; notifications := []; responses := [] |}.

(** ** Sessions, the world and the handler monad *)

Definition SESSION_TIMEOUT_MS : Z := 30 * 60 * 1000.

Record Session := {
  id : string;
  createdAt : Z;
  lastActivity : Z;
  initialized : bool }.

(** The mutable state a handler runs against: the session objects ([heap],
    a reference is an index), the [sessions] map from identifiers to
    references, how many times the clock was read ([ticks]) and an
    identifier was drawn ([draws]), and the calls made to the tool service
    so far ([calls]). *)
Record World := {
  heap : list Session;
  sessions : gmap string nat;
  ticks : nat;
  draws : nat;
  calls : list (string * option jsval) }.

(** What the server takes from its platform and its libraries: the [k]-th
    reading of [Date.now()], the [k]-th identifier of [uuidv4()],
    [JSON.parse] ([None] when it throws), the tool service ([callTool]
    answers a call given the calls made before it, with a result or with
    whatever it throws; [listTools] is its static table) and the two
    protocol constants of the SDK. *)
Record Platform := {
  Date_now : nat → Z;
  uuidv4 : nat → string;
  JSON_parse : string → option jsval;
  callTool : list (string * option jsval) → string → option jsval → res jsval;
  listTools : jsval;
  LATEST_PROTOCOL_VERSION : string;
  SUPPORTED_PROTOCOL_VERSIONS : list string }.

(** The JSON-RPC error codes of the SDK's [ErrorCode]. *)
Module ErrorCode.
Definition InvalidRequest : Z := -32600.
Definition MethodNotFound : Z := -32601.
Definition InvalidParams : Z := -32602.
Definition InternalError : Z := -32603.
End ErrorCode.

Definition M (A : Type) : Type := World → res A * World.

#[global] Instance M_ret : MRet M := λ A a w, (Ok a, w).
#[global] Instance M_bind : MBind M := λ A B f m w,
  match m w with
  | (Ok a, w') => f a w'
  | (Throw e, w') => (Throw e, w')
  end.

Definition throw {A} (e : exn) : M A := λ w, (Throw e, w).
Definition lift {A} (r : res A) : M A := λ w, (r, w).

(** [try { m } catch (e) { ... }] with the outcome handed to the caller. *)
Definition attempt {A} (m : M A) : M (res A) := λ w,
  let (r, w') := m w in (Ok r, w').

Definition set_heap (h : list Session) (w : World) : World :=
  {| heap := h; sessions := sessions w; ticks := ticks w; draws := draws w;
     calls := calls w |}.

Definition set_sessions (m : gmap string nat) (w : World) : World :=
  {| heap := heap w; sessions := m; ticks := ticks w; draws := draws w;
     calls := calls w |}.

Definition set_lastActivity (now : Z) (s : Session) : Session :=
  {| id := id s; createdAt := createdAt s; lastActivity := now;
     initialized := initialized s |}.

Definition set_initialized (b : bool) (s : Session) : Session :=
  {| id := id s; createdAt := createdAt s; lastActivity := lastActivity s;
     initialized := b |}.

(** [session.field = value] on the object a reference points to. *)
Definition mutate (session : nat) (f : Session → Session) : M unit := λ w,
  (Ok tt, set_heap (alter f session (heap w)) w).

(** A reference always points to an object in JavaScript; a dangling one
    cannot arise from the operations below. *)
Definition deref (session : nat) : M Session := λ w,
  match heap w !! session with
  | Some s => (Ok s, w)
  | None => (Throw (JsError "dangling reference"), w)
  end.

(** ** Requests, responses and frames *)

(** An HTTP request as the POST handler reads it: three headers
    ([None] when absent) and the body handed over by the body parser. *)
Record HttpRequest := {
  header_accept : option string;
  header_content_type : option string;
  header_session_id : option string;
  body : option jsval }.

(** One message of the stream: a JSON-RPC response or a JSON-RPC error. *)
Inductive frame : Type :=
  | ResultFrame (request_id : option jsval) (result : jsval)
  | ErrorFrame (request_id : option jsval) (code : Z) (message : string).


(** A request whose dispatch has been started, with what
    [handleRpcRequest] settles with (a result and, for a handshake, the new
    session identifier, or what it threw); the task awaits it. *)
Record task := {
  task_request : jsval;
  task_outcome : res (jsval * option string) }.

(** How the synchronous part of the POST handler ends: with a plain
    response ([res.status(..).end()] or [res.status(..).json({error})]), or
    with the event stream open and one task per request. *)
Inductive PostOutcome : Type :=
  | Replied (status : Z) (error : option string)
  | Streaming (tasks : list task).

(** [x || undefined] and [x || ''] on a header value *)
Definition or_undefined (x : option string) : option string :=
  match x with
  | Some "" => None
  | _ => x
  end.

Definition or_empty (x : option string) : string :=
  match x with
  | Some s => s
  | None => ""
  end.

(** [request.id] of a request that went through [isRequest], an object. *)
Definition id_of (request : jsval) : option jsval :=
  match request with
  | JObj fields => fields !! "id"
  | _ => None
  end.

(** [array.some(p)] for a test that reads a property. *)
Fixpoint js_some (p : jsval → res bool) (l : list jsval) : res bool :=
  match l with
  | [] => Ok false
  | x :: rest => b ← p x; if b : bool then Ok true else js_some p rest
  end.

Definition method_is (name : string) (request : jsval) : res bool :=
  method ← js_get request "method"; Ok (is_str method name).

Definition method_is_not (name : string) (request : jsval) : res bool :=
  method ← js_get request "method"; Ok (negb (is_str method name)).

Definition createErrorResponse (i : option jsval) (error : exn) : frame :=
  match error with
  | RpcError code message => ErrorFrame i code message
  | _ => ErrorFrame i ErrorCode.InternalError "Internal server error"
  end.

Section Server.
Context (env : Platform).

Definition now : M Z := λ w,
  (Ok (Date_now env (ticks w)),
   {| heap := heap w; sessions := sessions w; ticks := S (ticks w);
      draws := draws w; calls := calls w |}).

Definition uuid : M string := λ w,
  (Ok (uuidv4 env (draws w)),
   {| heap := heap w; sessions := sessions w; ticks := ticks w;
      draws := S (draws w); calls := calls w |}).

Definition invoke (name : string) (args : option jsval) : M jsval := λ w,
  (callTool env (calls w) name args,
   {| heap := heap w; sessions := sessions w; ticks := ticks w;
      draws := draws w; calls := calls w ++ [(name, args)] |}).

(** *** The session store *)

(** [sessions.set(id, session)] for a new object [session] *)
Definition register (session : Session) : M nat := λ w,
  let r := length (heap w) in
  (Ok r,
   set_sessions (<[id session := r]> (sessions w))
     (set_heap (heap w ++ [session]) w)).

Definition createSession : M nat :=
  i ← uuid;
  t ← now;
  register {| id := i; createdAt := t; lastActivity := t; initialized := false |}.

Definition requireSessionHeader (sessionId : option string) : res string :=
  match sessionId with
  | None | Some "" => Throw (HttpError 400 "Missing Mcp-Session-Id header")
  | Some s => Ok s
  end.

Definition loadSession (sessionId : string) : M nat := λ w,
  match sessions w !! sessionId with
  | Some session => (Ok session, w)
  | None => (Throw (HttpError 404 "Session not found"), w)
  end.

Definition touchSession (session : nat) : M unit :=
  t ← now;
  mutate session (set_lastActivity t).

Definition ensureSession (session : option nat) : res nat :=
  match session with
  | None => Throw (RpcError ErrorCode.InvalidRequest "Request requires an active session")
  | Some s => Ok s
  end.

(** The idle sweep of the interval timer. The entries are visited in the
    order of [map_to_list]; the map that results does not depend on it. *)
Definition expired (t : Z) (h : list Session) (session : nat) : bool :=
  match h !! session with
  | Some s => bool_decide (SESSION_TIMEOUT_MS ≤ t - lastActivity s)
  | None => false
  end.

Definition sweep_loop (t : Z) (h : list Session)
    (entries : list (string * nat)) (m : gmap string nat) : gmap string nat :=
  foldl (λ acc '(sessionId, session),
           if expired t h session then delete sessionId acc else acc)
        m entries.

Definition evict (t : Z) : M unit := λ w,
  (Ok tt,
   set_sessions
     (sweep_loop t (heap w) (map_to_list (sessions w)) (sessions w)) w).

Definition sweep : M unit :=
  t ← now;
  evict t.

(** *** Decoding *)

Definition enforceAcceptHeader (req : HttpRequest) : res unit :=
  let accept := toLowerCase (or_empty (header_accept req)) in
  if negb (includes accept "application/json")
     && negb (includes accept "text/event-stream")
  then Throw (HttpError 406
         "Clients must include application/json or text/event-stream in the Accept header.")
  else Ok tt.

Definition enforceJsonContent (req : HttpRequest) : res unit :=
  let contentType := or_empty (header_content_type req) in
  if negb (includes contentType "application/json")
  then Throw (HttpError 415 "Content-Type must be application/json")
  else Ok tt.

Definition normalizeMessages (b : option jsval) : res (list jsval) :=
  payload ← match b with
            | Some (JStr text) =>
                match JSON_parse env text with
                | Some v => Ok (Some v)
                | None => Throw (HttpError 400 "Invalid JSON body")
                end
            | _ => Ok b
            end;
  match payload with
  | Some (JArr items) => Ok items
  | Some (JObj fields) => Ok [JObj fields]
  | _ => Throw (HttpError 400 "Invalid JSON-RPC payload")
  end.

(** *** Notifications *)

Definition notify (session : nat) (notification : jsval) : M unit :=
  method ← lift (js_get notification "method");
  if is_str method "initialized" then
    mutate session (set_initialized true);;
    touchSession session
  else if is_str method "notifications/cancelled"
          || is_str method "notifications/progress" then
    touchSession session
  else mret tt.

Fixpoint notify_all (session : nat) (l : list jsval) : M unit :=
  match l with
  | [] => mret tt
  | notification :: rest => notify session notification;; notify_all session rest
  end.

Definition processNotifications (headerSessionId : option string)
    (l : list jsval) : M unit :=
  match l with
  | [] => mret tt
  | _ =>
      sessionId ← lift (requireSessionHeader headerSessionId);
      session ← loadSession sessionId;
      notify_all session l
  end.

(** *** The dispatcher *)

Definition protocolVersion (requestedVersion : option jsval) : string :=
  match requestedVersion with
  | Some (JStr v) =>
      if bool_decide (v ∈ SUPPORTED_PROTOCOL_VERSIONS env) then v
      else LATEST_PROTOCOL_VERSION env
  | _ => LATEST_PROTOCOL_VERSION env
  end.

Definition initialize_result (version : string) : jsval :=
  JObj (<["protocolVersion" := JStr version]>
        (<["capabilities" := JObj (<["tools" := JObj ∅]> ∅)]>
         (<["serverInfo" :=
              JObj (<["name" := JStr "mcp-cerebra-legal-server"]>
                    (<["version" := JStr "2.0.0"]> ∅))]> ∅))).

Definition handleRpcRequest (request : jsval) (session : option nat)
    : M (jsval * option string) :=
  method ← lift (js_get request "method");
  if is_str method "initialize" then
    newSession ← createSession;
    params ← lift (js_get request "params");
    let requestedVersion := js_get_opt params "protocolVersion" in
    created ← deref newSession;
    mret (initialize_result (protocolVersion requestedVersion), Some (id created))
  else if is_str method "ping" then
    currentSession ← lift (ensureSession session);
    touchSession currentSession;;
    mret (JObj ∅, None)
  else if is_str method "tools/list" then
    currentSession ← lift (ensureSession session);
    touchSession currentSession;;
    mret (JObj (<["tools" := listTools env]> ∅), None)
  else if is_str method "tools/call" then
    currentSession ← lift (ensureSession session);
    touchSession currentSession;;
    params ← lift (js_get request "params");
    match js_get_opt params "name" with
    | Some (JStr name) =>
        toolResult ← invoke name (js_get_opt params "arguments");
        mret (toolResult, None)
    | _ => throw (RpcError ErrorCode.InvalidParams "Tool name is required")
    end
  else
    throw (RpcError ErrorCode.MethodNotFound
             ("Unsupported method: " +:+ js_template method)).

(** *** The POST handler, up to the opening of the stream *)

(** [requests.map(async (request) => ...)]: every task runs up to its
    [await], in the order of the requests, and whatever its dispatch
    throws stays inside the task. *)
Fixpoint dispatch (l : list jsval) (session : option nat) : M (list task) :=
  match l with
  | [] => mret []
  | request :: rest =>
      outcome ← attempt (handleRpcRequest request session);
      tasks ← dispatch rest session;
      mret ({| task_request := request; task_outcome := outcome |} :: tasks)
  end.

Definition peek (sessionId : string) : M (option nat) := λ w,
  (Ok (sessions w !! sessionId), w).

Definition bind_session (requiresSession : bool)
    (headerSessionId : option string) : M (option nat) :=
  if requiresSession then
    sessionId ← lift (requireSessionHeader headerSessionId);
    session ← loadSession sessionId;
    mret (Some session)
  else
    match headerSessionId with
    | None | Some "" => mret None
    | Some sessionId => peek sessionId
    end.

(** The handler from the test of [requests.length] on: the check of the
    batch, the session the requests are bound to, and the tasks. *)
Definition respond (headerSessionId : option string) (l : list jsval)
    : M PostOutcome :=
  match l with
  | [] => mret (Replied 202 None)
  | _ =>
      hasInitialize ← lift (js_some (method_is "initialize") l);
      if hasInitialize && (1 <? length l)%nat then
        throw (HttpError 400 "Initialize request must be sent separately.")
      else
        requiresSession ← lift (js_some (method_is_not "initialize") l);
        session ← bind_session requiresSession headerSessionId;
        tasks ← dispatch l session;
        mret (Streaming tasks)
  end.

Definition post_body (req : HttpRequest) : M PostOutcome :=
  lift (enforceAcceptHeader req);;
  lift (enforceJsonContent req);;
  messages ← lift (normalizeMessages (body req));
  match messages with
  | [] => throw (HttpError 400 "Empty JSON-RPC payload")
  | _ =>
      let headerSessionId := or_undefined (header_session_id req) in
      parts ← lift (partitionMessages messages);
      processNotifications headerSessionId (notifications parts);;
      respond headerSessionId (requests parts)
  end.

(** The [catch] of the handler: [handleHttpError]. *)
Definition handleHttpError (error : exn) : PostOutcome :=
  match error with
  | HttpError status message => Replied status (Some message)
  | _ => Replied 500 (Some "Internal server error")
  end.

Definition finish (r : res PostOutcome * World) : PostOutcome * World :=
  match r with
  | (Ok outcome, w') => (outcome, w')
  | (Throw error, w') => (handleHttpError error, w')
  end.

Definition post (req : HttpRequest) (w : World) : PostOutcome * World :=
  finish (post_body req w).

End Server.

(** ** The stream *)

(** The response while the tasks settle: the [Mcp-Session-Id] header, the
    flag [sessionIdResponseSet], the tasks still awaited and the frames
    written so far: the messages [sendSseMessage] was called with, in the
    order of the calls. *)
Record Stream := {
  session_header : option string;
  sessionIdResponseSet : bool;
  pending : list task;
  written : list frame }.

Definition openSseStream (tasks : list task) : Stream :=
  {| session_header := None; sessionIdResponseSet := false;
     pending := tasks; written := [] |}.

Definition truthy (x : option string) : bool :=
  match x with
  | None | Some "" => false
  | Some _ => true
  end.

(** The continuation of one task after its [await]: the frame it calls
    [sendSseMessage] with, and the header it sets, [rest] being the tasks
    still awaited. *)
Definition settle (t : task) (rest : list task) (st : Stream) : Stream :=
  match task_outcome t with
  | Ok (result, newSessionId) =>
      let fresh := truthy newSessionId && negb (sessionIdResponseSet st) in
      {| session_header := if fresh then newSessionId else session_header st;
         sessionIdResponseSet := fresh || sessionIdResponseSet st;
         pending := rest;
         written := written st ++ [ResultFrame (id_of (task_request t)) result] |}
  | Throw error =>
      {| session_header := session_header st;
         sessionIdResponseSet := sessionIdResponseSet st;
         pending := rest;
         written := written st
                    ++ [createErrorResponse (id_of (task_request t)) error] |}
  end.

(** Any awaited task may be the next to settle: completion order is not
    submission order. *)
Inductive step : Stream → Stream → Prop :=
  | step_settle st before t after :
      pending st = before ++ t :: after →
      step st (settle t (before ++ after) st).

(** [await Promise.all(tasks)]: the stream is ended once no task is awaited. *)
Definition ended (st : Stream) : Prop := pending st = [].

Definition runs_to (st st' : Stream) : Prop := rtc step st st' ∧ ended st'.

(** The run in which the tasks settle in the order they were started. *)
Fixpoint drain (l : list task) (st : Stream) : Stream :=
  match l with
  | [] => st
  | t :: rest => drain rest (settle t rest st)
  end.

(** [sendSseMessage]: the event carries [JSON.stringify(message)]. The
    message as the client parses it: an identifier that is [undefined] is
    not printed, the code of an error is one of the finite codes the server
    throws, and its message is a string. *)
Definition sendSseMessage (message : frame) : frame :=
  match message with
  | ResultFrame i result => ResultFrame (printed <$> i) (printed result)
  | ErrorFrame i code text => ErrorFrame (printed <$> i) code text
  end.

(** The events of the response body, as the client reads them. *)
Definition events (st : Stream) : list frame := map sendSseMessage (written st).

(** ** The rule of the specification, and what one run looks like *)

(** The three shapes of a message, and the rule of the specification: a
    message with a string [method] and an [id] field is a request, one with
    a string [method] and no [id] is a notification, anything else is a
    response. *)
Inductive kind : Type := Request | Notification | Response.

#[global] Instance kind_eq_dec : EqDecision kind.
Proof. solve_decision. Defined.

Definition has_string_method (message : jsval) : bool :=
  match message with
  | JObj fields => is_string (fields !! "method")
  | _ => false
  end.

Definition has_id_field (message : jsval) : bool :=
  match message with
  | JObj fields => bool_decide (is_Some (fields !! "id"))
  | _ => false
  end.

Definition spec_classify (message : jsval) : kind :=
  if has_string_method message then
    if has_id_field message then Request else Notification
  else Response.

Definition of_kind (k : kind) (messages : list jsval) : list jsval :=
  filter (λ message, spec_classify message = k) messages.

(** [message.method] of a message that is not [null]. *)
Definition method_of (message : jsval) : option jsval :=
  match message with
  | JObj fields => fields !! "method"
  | _ => None
  end.

Definition is_initialize (request : jsval) : bool :=
  is_str (method_of request) "initialize".

(** The notifications that mark the session initialized, and those that
    refresh its activity. *)
Definition marks_initialized (notification : jsval) : bool :=
  is_str (method_of notification) "initialized".

Definition touches (notification : jsval) : bool :=
  is_str (method_of notification) "initialized"
  || is_str (method_of notification) "notifications/cancelled"
  || is_str (method_of notification) "notifications/progress".

(** The frame a task writes when it settles. *)
Definition frame_of (t : task) : frame :=
  match task_outcome t with
  | Ok (result, _) => ResultFrame (id_of (task_request t)) result
  | Throw error => createErrorResponse (id_of (task_request t)) error
  end.

(** The world the dispatch of the requests [l], one after the other,
    leaves. *)
Definition world_after (env : Platform) (session : option nat) (l : list jsval)
    (w : World) : World :=
  foldl (λ w request, snd (handleRpcRequest env request session w)) w l.


(** The session object [createSession] makes in a world. *)
Definition new_session (env : Platform) (w : World) : Session :=
  {| id := uuidv4 env (draws w); createdAt := Date_now env (ticks w);
     lastActivity := Date_now env (ticks w); initialized := false |}.

(** A platform and a few messages to run the server on. *)
Module Sample.

Definition env : Platform := {|
  Date_now := λ k, 1000 + 1000 * Z.of_nat k;
  uuidv4 := λ k, "session-" +:+ pretty k;
  JSON_parse := λ _, None;
  callTool := λ _ name _,
    if String.eqb name "legal_think" then Ok (JObj ∅)
    else Throw (JsError "connect ECONNREFUSED 10.0.0.7:443");
  listTools := JArr [];
  LATEST_PROTOCOL_VERSION := "2025-06-18";
  SUPPORTED_PROTOCOL_VERSIONS := ["2025-06-18"; "2025-03-26"; "2024-11-05"] |}.

Definition empty : World :=
  {| heap := []; sessions := ∅; ticks := 0; draws := 0; calls := [] |}.

(** One session, [session-0], created at time 1000. *)
Definition live : World :=
  {| heap := [ {| id := "session-0"; createdAt := 1000; lastActivity := 1000;
                  initialized := false |} ];
     sessions := {[ "session-0" := 0%nat ]};
     ticks := 1; draws := 1; calls := [] |}.

Definition obj (fields : list (string * jsval)) : jsval :=
  JObj (list_to_map fields).

Definition initialize : jsval :=
  obj [("jsonrpc", JStr "2.0"); ("id", JNum 1); ("method", JStr "initialize");
       ("params", obj [("protocolVersion", JStr "2024-11-05")])].

Definition ping : jsval :=
  obj [("jsonrpc", JStr "2.0"); ("id", JNum 2); ("method", JStr "ping")].

Definition call (i name : string) : jsval :=
  obj [("jsonrpc", JStr "2.0"); ("id", JStr i); ("method", JStr "tools/call");
       ("params", obj [("name", JStr name)])].

Definition initialized_note : jsval :=
  obj [("jsonrpc", JStr "2.0"); ("method", JStr "initialized")].


Definition request (session : option string) (b : jsval) : HttpRequest :=
  {| header_accept := Some "application/json, text/event-stream";
     header_content_type := Some "application/json";
     header_session_id := session;
     body := Some b |}.

(** A batch of three requests, the first of which calls a tool that fails. *)
Definition batch : jsval :=
  JArr [call "a" "legal_verify_with_api"; ping; call "b" "legal_think"].

Definition failing : task :=
  {| task_request := call "a" "legal_verify_with_api";
     task_outcome := Throw (JsError "connect ECONNREFUSED 10.0.0.7:443") |}.

Definition tasks : list task :=
  [ failing;
    {| task_request := ping; task_outcome := Ok (JObj ∅, None) |};
    {| task_request := call "b" "legal_think"; task_outcome := Ok (JObj ∅, None) |} ].

(** The task of a handshake on the empty world. *)
Definition handshake : list task :=
  [ {| task_request := initialize;
       task_outcome := Ok (initialize_result "2024-11-05", Some "session-0") |} ].

(** The sample platform with a parser that knows one text. *)
Definition parsing : Platform :=
  {| Date_now := Date_now env;
     uuidv4 := uuidv4 env;
     JSON_parse := λ text,
       if String.eqb text "[5]" then Some (JArr [JNum 5]) else None;
     callTool := callTool env;
     listTools := listTools env;
     LATEST_PROTOCOL_VERSION := LATEST_PROTOCOL_VERSION env;
     SUPPORTED_PROTOCOL_VERSIONS := SUPPORTED_PROTOCOL_VERSIONS env |}.

End Sample.

(** ** The tool service *)

(** [LegalToolsService]: the dispatch on the name of the tool, the two
    tools that only validate and echo their input, and the shape of every
    answer. The service takes from elsewhere: [JSON.stringify(v, null, 2)];
    the domain detector (a class of the repository that is not among the
    sources; whatever it throws is caught by the tool); the message of the
    [TypeError] the runtime throws when a property is read of [undefined]
    or [null]; and the two tools that are not modelled here, each an
    oracle from the arguments to what it returns or throws. *)
Record ToolPlatform := {
  JSON_stringify : jsval → string;
  detectDomain : string → res string;
  cannot_read : option jsval → string → string;
  processLegalThink : option jsval → res jsval;
  processVerification : option jsval → res jsval }.

(** Truthiness of a JSON value. *)
Definition js_truthy (v : option jsval) : bool :=
  match v with
  | None | Some JNull => false
  | Some (JBool b) => b
  | Some (JNum (Finite n)) => negb (n =? 0)
  | Some (JNum (Infinite _)) => true
  | Some (JStr s) => negb (String.eqb s "")
  | Some (JArr _) | Some (JObj _) => true
  end.

(** [error.message] *)
Definition error_message (e : exn) : string :=
  match e with
  | HttpError _ message | RpcError _ message | JsError message => message
  end.

Module LegalToolsService.
Section Service.
Context (tp : ToolPlatform).

Definition createTextResponse (payload : jsval) (isError : bool) : jsval :=
  let text :=
    match payload with
    | JStr s => s
    | _ => JSON_stringify tp payload
    end in
  let content :=
    JArr [JObj (<["type" := JStr "text"]> (<["text" := JStr text]> ∅))] in
  JObj (<["content" := content]>
          (if isError then <["isError" := JBool true]> ∅ else ∅)).

Definition handleToolError (error : exn) : jsval :=
  createTextResponse
    (JObj (<["error" := JStr (error_message error)]>
             (<["status" := JStr "failed"]> ∅)))
    true.

(** [{ ...fields, key: value }] where a value that is [undefined] leaves
    no key in what [JSON.stringify] prints. *)
Definition with_key (key : string) (value : option jsval)
    (fields : gmap string jsval) : gmap string jsval :=
  match value with
  | Some v => <[key := v]> fields
  | None => fields
  end.

Definition processLegalAskFollowupQuestion (input : option jsval) : jsval :=
  match input with
  | None | Some JNull => handleToolError (JsError (cannot_read tp input "question"))
  | Some _ =>
      match js_get_opt input "question" with
      | Some (JStr question) =>
          if String.eqb question "" then
            handleToolError (JsError "Invalid question: must be a string")
          else
            let options :=
              if js_truthy (js_get_opt input "options")
              then js_get_opt input "options" else Some (JArr []) in
            match detectDomain tp question with
            | Ok domain =>
                createTextResponse
                  (JObj (<["question" := JStr question]>
                           (with_key "options" options
                              (<["detectedDomain" := JStr domain]> ∅))))
                  false
            | Throw error => handleToolError error
            end
      | _ => handleToolError (JsError "Invalid question: must be a string")
      end
  end.

Definition processLegalAttemptCompletion (input : option jsval) : jsval :=
  match input with
  | None | Some JNull => handleToolError (JsError (cannot_read tp input "result"))
  | Some _ =>
      match js_get_opt input "result" with
      | Some (JStr result) =>
          if String.eqb result "" then
            handleToolError (JsError "Invalid result: must be a string")
          else
            match detectDomain tp result with
            | Ok domain =>
                createTextResponse
                  (JObj (<["result" := JStr result]>
                           (with_key "command" (js_get_opt input "command")
                              (<["detectedDomain" := JStr domain]>
                                 (<["formattedCitations" := JArr []]> ∅)))))
                  false
            | Throw error => handleToolError error
            end
      | _ => handleToolError (JsError "Invalid result: must be a string")
      end
  end.

Definition callTool (name : string) (args : option jsval) : res jsval :=
  if String.eqb name "legal_think" then processLegalThink tp args
  else if String.eqb name "legal_ask_followup_question" then
    Ok (processLegalAskFollowupQuestion args)
  else if String.eqb name "legal_attempt_completion" then
    Ok (processLegalAttemptCompletion args)
  else if String.eqb name "legal_verify_with_api" then processVerification tp args
  else
    Ok (createTextResponse
          (JObj (<["error" := JStr ("Unknown tool: " +:+ name)]> ∅)) true).

(** [result.isError === true] *)
Definition isError (response : jsval) : bool :=
  match js_get_opt (Some response) "isError" with
  | Some (JBool true) => true
  | _ => false
  end.

(** The text of the one content item of a response. *)
Definition text_of (response : jsval) : option jsval :=
  match js_get_opt (Some response) "content" with
  | Some (JArr [item]) => js_get_opt (Some item) "text"
  | _ => None
  end.

Definition tool_names : list string :=
  ["legal_think"; "legal_ask_followup_question"; "legal_attempt_completion";
   "legal_verify_with_api"].

End Service.
End LegalToolsService.

(** A tool platform to run the service on. *)
Definition sample_tools : ToolPlatform :=
  {| JSON_stringify := λ _, "{...}";
     detectDomain := λ _, Ok "legal_reasoning";
     cannot_read := λ _ key, "Cannot read properties (reading '" +:+ key +:+ "')";
     processLegalThink := λ _, Ok (JObj ∅);
     processVerification := λ _, Throw (JsError "connect ECONNREFUSED") |}.

(** The platform whose tool service is [LegalToolsService]. *)
Definition with_service (tp : ToolPlatform) (env : Platform) : Platform :=
  {| Date_now := Date_now env;
     uuidv4 := uuidv4 env;
     JSON_parse := JSON_parse env;
     callTool := λ _ name args, LegalToolsService.callTool tp name args;
     listTools := listTools env;
     LATEST_PROTOCOL_VERSION := LATEST_PROTOCOL_VERSION env;
     SUPPORTED_PROTOCOL_VERSIONS := SUPPORTED_PROTOCOL_VERSIONS env |}.

(** ** The other endpoints of the MCP path *)

(** [app.delete(MCP_ENDPOINT, ...)], given the [Mcp-Session-Id] header. *)
Definition mcp_delete (sessionId : option string) (w : World)
    : PostOutcome * World :=
  match sessionId with
  | None | Some "" => (Replied 400 (Some "Missing Mcp-Session-Id header"), w)
  | Some i =>
      match sessions w !! i with
      | None => (Replied 404 (Some "Session not found"), w)
      | Some _ => (Replied 204 None, set_sessions (delete i (sessions w)) w)
      end
  end.

(** [app.get(MCP_ENDPOINT, ...)] *)
Definition mcp_get : PostOutcome :=
  Replied 405
    (Some "Server-initiated SSE streams are not supported on this endpoint.").

(** ** What the handlers keep *)

(** Every identifier of the map refers to a session object that carries
    this identifier. *)
Definition well_formed (w : World) : Prop :=
  ∀ i r, sessions w !! i = Some r → ∃ s, heap w !! r = Some s ∧ id s = i.

(** From [w] to [w']: the session objects of [w] are still there, with
    their identifier and creation time, and initialized if they were; no
    identifier has left the map; the clock and the identifier generator
    have only been read further; the calls to the tool service have only
    been added to. *)
Record grows (w w' : World) : Prop := {
  grows_heap : ∀ r s, heap w !! r = Some s →
    ∃ s', heap w' !! r = Some s' ∧ id s' = id s ∧ createdAt s' = createdAt s
          ∧ (initialized s = true → initialized s' = true);
  grows_sessions : ∀ i, is_Some (sessions w !! i) → is_Some (sessions w' !! i);
  grows_ticks : (ticks w ≤ ticks w')%nat;
  grows_draws : (draws w ≤ draws w')%nat;
  grows_calls : calls w `prefix_of` calls w';
  grows_well_formed : well_formed w → well_formed w' }.

(** An assignment to [lastActivity] or of [true] to [initialized]. *)
Definition harmless (f : Session → Session) : Prop :=
  ∀ s, id (f s) = id s ∧ createdAt (f s) = createdAt s
       ∧ (initialized s = true → initialized (f s) = true).

(** A computation every run of which grows the world. *)
Definition growing {A} (m : M A) : Prop := ∀ w, grows w (snd (m w)).

(** The session identifiers the tasks of a stream announce. *)
Definition announced (l : list task) : list string :=
  omap (λ t, match task_outcome t with
             | Ok (_, Some i) => if truthy (Some i) then Some i else None
             | _ => None
             end) l.

(** The world after [touchSession]. *)
Definition touched (env : Platform) (session : nat) (w : World) : World :=
  {| heap := alter (set_lastActivity (Date_now env (ticks w))) session (heap w);
     sessions := sessions w; ticks := S (ticks w); draws := draws w;
     calls := calls w |}.

(** The methods the dispatcher knows. *)
Definition known_methods : list string :=
  ["initialize"; "ping"; "tools/list"; "tools/call"].

(** A request with another body. *)
Definition with_body (b : option jsval) (req : HttpRequest) : HttpRequest :=
  {| header_accept := header_accept req;
     header_content_type := header_content_type req;
     header_session_id := header_session_id req;
     body := b |}.

(** * Properties *)

(** ** Running monadic code *)

(** Decide the method tests on a known method name. *)
Ltac eval_is_str :=
  repeat match goal with
  | |- context [is_str (Some (JStr ?a)) ?b] =>
      let v := eval vm_compute in (is_str (Some (JStr a)) b) in
      change (is_str (Some (JStr a)) b) with v
  end;
  cbv beta iota.

Lemma run_bind {A B} (m : M A) (f : A → M B) (w : World) :
  (m ≫= f) w =
  match m w with
  | (Ok a, w') => f a w'
  | (Throw e, w') => (Throw e, w')
  end.
Proof. reflexivity. Qed.

Lemma run_lift_ok {A B} (r : res A) (a : A) (f : A → M B) (w : World) :
  r = Ok a → (lift r ≫= f) w = f a w.
Proof. intros ->. reflexivity. Qed.

Lemma run_lift_throw {A B} (r : res A) (e : exn) (f : A → M B) (w : World) :
  r = Throw e → (lift r ≫= f) w = (Throw e, w).
Proof. intros ->. reflexivity. Qed.

(** ** The classifier *)

Lemma isRequest_classify (message : jsval) :
  message ≠ JNull →
  isRequest message = Ok (bool_decide (spec_classify message = Request)).
Proof.
  intros Hnull. destruct message as [| b | n | s | items | fields]; try done.
  unfold isRequest, spec_classify. simpl.
  destruct (is_string (fields !! "method")); [|done].
  simpl. by destruct (bool_decide (is_Some (fields !! "id"))).
Qed.

Lemma isNotification_classify (message : jsval) :
  message ≠ JNull →
  isNotification message = Ok (bool_decide (spec_classify message = Notification)).
Proof.
  intros Hnull. destruct message as [| b | n | s | items | fields]; try done.
  unfold isNotification, spec_classify. simpl.
  destruct (is_string (fields !! "method")); [|done].
  simpl. by destruct (bool_decide (is_Some (fields !! "id"))).
Qed.

Lemma partition_loop_filter (messages : list jsval) (acc : Partition) :
  Forall (λ message, message ≠ JNull) messages →
  partition_loop messages acc =
  Ok {| requests := requests acc ++ of_kind Request messages;
        notifications := notifications acc ++ of_kind Notification messages;
        responses := responses acc ++ of_kind Response messages |}.
Proof.
  intros Hall. revert acc.
  induction Hall as [| message rest Hnull _ IH]; intros acc.
  - simpl. unfold of_kind. rewrite !filter_nil, !app_nil_r. by destruct acc.
  - cbn [partition_loop]. unfold of_kind in *.
    rewrite (isRequest_classify _ Hnull), (isNotification_classify _ Hnull).
    rewrite !filter_cons. unfold mbind, res_bind.
    destruct (spec_classify message) eqn:Hk;
      repeat (first [ rewrite bool_decide_eq_true_2 by done
                    | rewrite bool_decide_eq_false_2 by done ]);
      rewrite IH; cbn [requests notifications responses];
      repeat case_decide; try done; by rewrite <- app_assoc.
Qed.

Lemma of_kind_perm (messages : list jsval) :
  of_kind Request messages ++ of_kind Notification messages
    ++ of_kind Response messages ≡ₚ messages.
Proof.
  unfold of_kind. induction messages as [| message rest IH]; [done|].
  rewrite !filter_cons.
  destruct (spec_classify message); repeat case_decide; try done; simpl.
  - by rewrite IH.
  - rewrite <- Permutation_middle. by rewrite IH.
  - rewrite app_assoc, <- Permutation_middle, <- app_assoc. by rewrite IH.
Qed.

Lemma partition_filters (messages : list jsval) :
  Forall (λ message, message ≠ JNull) messages →
  partitionMessages messages
  = Ok {| requests := of_kind Request messages;
          notifications := of_kind Notification messages;
          responses := of_kind Response messages |}.
Proof. intros Hall. unfold partitionMessages. by rewrite partition_loop_filter. Qed.

(** C1. Partitioning a decoded batch (no element of which is [null])
    returns three sequences that are, each in the order of the input, the
    messages the structural rule makes requests, notifications and
    responses; every message is in exactly one of them. *)
Theorem partitionMessages_classifies (messages : list jsval) :
  Forall (λ message, message ≠ JNull) messages →
  ∃ parts,
    partitionMessages messages = Ok parts
    ∧ requests parts = of_kind Request messages
    ∧ notifications parts = of_kind Notification messages
    ∧ responses parts = of_kind Response messages
    ∧ requests parts ++ notifications parts ++ responses parts ≡ₚ messages.
Proof.
  intros Hall. rewrite (partition_filters _ Hall).
  eexists. split; [done|]. cbn. repeat split; try done.
  apply of_kind_perm.
Qed.

Lemma partitionMessages_classifies_witness :
  ∃ parts,
    partitionMessages [Sample.ping; JNum 5; Sample.initialized_note; Sample.initialize]
      = Ok parts
    ∧ requests parts = [Sample.ping; Sample.initialize]
    ∧ notifications parts = [Sample.initialized_note]
    ∧ responses parts = [JNum 5].
Proof.
  destruct (partitionMessages_classifies
              [Sample.ping; JNum 5; Sample.initialized_note; Sample.initialize])
    as (parts & Hrun & Hreq & Hnot & Hres & _).
  - repeat constructor; discriminate.
  - exists parts. rewrite Hrun, Hreq, Hnot, Hres. repeat split; vm_compute; reflexivity.
Defined.

(** ** The idle sweep *)

Section Sweep.
Context (env : Platform).

Lemma touchSession_run (session : nat) (w : World) :
  touchSession env session w =
  (Ok tt,
   {| heap := alter (set_lastActivity (Date_now env (ticks w))) session (heap w);
      sessions := sessions w; ticks := S (ticks w); draws := draws w;
      calls := calls w |}).
Proof. reflexivity. Qed.

Lemma sweep_loop_cons (t : Z) (h : list Session) (k : string) (r : nat)
    (entries : list (string * nat)) (m : gmap string nat) :
  sweep_loop t h ((k, r) :: entries) m =
  sweep_loop t h entries (if expired t h r then delete k m else m).
Proof. reflexivity. Qed.

Lemma sweep_loop_absent (t : Z) (h : list Session) (entries : list (string * nat))
    (m : gmap string nat) (sessionId : string) :
  m !! sessionId = None → sweep_loop t h entries m !! sessionId = None.
Proof.
  revert m. induction entries as [| [k r] entries IH]; intros m Hm; [done|].
  rewrite sweep_loop_cons. apply IH. destruct (expired t h r); [|done].
  destruct (decide (k = sessionId)) as [->|Hne].
  - apply lookup_delete_eq.
  - by rewrite lookup_delete_ne.
Qed.

Lemma sweep_loop_evicts (t : Z) (h : list Session) (entries : list (string * nat))
    (m : gmap string nat) (sessionId : string) (session : nat) :
  (sessionId, session) ∈ entries → expired t h session = true →
  sweep_loop t h entries m !! sessionId = None.
Proof.
  revert m. induction entries as [| [k r] entries IH]; intros m Hin Hexp.
  - by apply elem_of_nil in Hin.
  - apply elem_of_cons in Hin as [Heq | Hin].
    + injection Heq as <- <-. rewrite sweep_loop_cons, Hexp.
      apply sweep_loop_absent, lookup_delete_eq.
    + rewrite sweep_loop_cons. by apply IH.
Qed.

Lemma sweep_loop_keeps (t : Z) (h : list Session) (entries : list (string * nat))
    (m : gmap string nat) (sessionId : string) :
  (∀ session, (sessionId, session) ∈ entries → expired t h session = false) →
  sweep_loop t h entries m !! sessionId = m !! sessionId.
Proof.
  revert m. induction entries as [| [k r] entries IH]; intros m Hfresh; [done|].
  rewrite sweep_loop_cons, IH.
  - destruct (expired t h r) eqn:Hexp; [|done].
    destruct (decide (k = sessionId)) as [->|Hne].
    + rewrite Hfresh in Hexp; [done | left].
    + by rewrite lookup_delete_ne.
  - intros session Hin. apply Hfresh. by right.
Qed.

Lemma evict_idle (t : Z) (w : World) (sessionId : string) (session : nat) (s : Session) :
  sessions w !! sessionId = Some session → heap w !! session = Some s →
  SESSION_TIMEOUT_MS ≤ t - lastActivity s →
  ∃ w', evict t w = (Ok tt, w') ∧ sessions w' !! sessionId = None.
Proof.
  intros Hmap Hobj Hidle. eexists. split; [done|]. cbn.
  apply sweep_loop_evicts with session.
  - by apply elem_of_map_to_list.
  - unfold expired. rewrite Hobj. by apply bool_decide_eq_true_2.
Qed.

Lemma evict_active (t : Z) (w : World) (sessionId : string) (session : nat) (s : Session) :
  sessions w !! sessionId = Some session → heap w !! session = Some s →
  t - lastActivity s < SESSION_TIMEOUT_MS →
  ∃ w', evict t w = (Ok tt, w') ∧ sessions w' !! sessionId = Some session
        ∧ heap w' = heap w.
Proof.
  intros Hmap Hobj Hidle. eexists. split; [done|]. cbn. split; [|done].
  rewrite sweep_loop_keeps; [done|].
  intros r Hin. apply elem_of_map_to_list in Hin.
  assert (r = session) as -> by congruence.
  unfold expired. rewrite Hobj. apply bool_decide_eq_false_2. lia.
Qed.

(** C4. When the sweep runs, a session idle for at least the timeout
    window is evicted and loading its identifier then fails with 404
    NotFound (the store being left as it is, so that every later load fails
    too); a session touched less than the window before the sweep survives
    it and is loaded again, with the activity time of the touch. *)
Theorem sweep_evicts_idle_keeps_touched (w : World) (sessionId : string)
    (session : nat) (s : Session) :
  sessions w !! sessionId = Some session →
  heap w !! session = Some s →
  (SESSION_TIMEOUT_MS ≤ Date_now env (ticks w) - lastActivity s →
     ∃ w', sweep env w = (Ok tt, w')
           ∧ loadSession sessionId w'
             = (Throw (HttpError 404 "Session not found"), w'))
  ∧ (Date_now env (S (ticks w)) - Date_now env (ticks w) < SESSION_TIMEOUT_MS →
     ∃ w', (touchSession env session ≫= λ _, sweep env) w = (Ok tt, w')
           ∧ loadSession sessionId w' = (Ok session, w')
           ∧ heap w' !! session
             = Some (set_lastActivity (Date_now env (ticks w)) s)).
Proof.
  intros Hmap Hobj. split.
  - intros Hidle.
    destruct (evict_idle (Date_now env (ticks w))
                (snd (now env w)) sessionId session s) as (w' & Hrun & Hgone);
      try done.
    exists w'. split.
    + unfold sweep. rewrite run_bind. cbn. exact Hrun.
    + unfold loadSession. by rewrite Hgone.
  - intros Hfresh.
    set (w1 := snd ((touchSession env session) w)).
    assert (heap w1 !! session = Some (set_lastActivity (Date_now env (ticks w)) s))
      as Hobj1.
    { unfold w1. rewrite touchSession_run. cbn [snd heap].
      by rewrite list_lookup_alter_eq, Hobj. }
    destruct (evict_active (Date_now env (S (ticks w)))
                (snd (now env w1)) sessionId session
                (set_lastActivity (Date_now env (ticks w)) s))
      as (w' & Hrun & Hkept & Hheap); try done.
    exists w'. split; [|split].
    + unfold sweep. rewrite !run_bind. cbn. exact Hrun.
    + unfold loadSession. by rewrite Hkept.
    + by rewrite Hheap.
Qed.

End Sweep.

Lemma sweep_evicts_idle_keeps_touched_witness :
  (∃ w', sweep (Sample.env) (set_heap
           [ {| id := "session-0"; createdAt := 1000;
                lastActivity := 2000 - SESSION_TIMEOUT_MS; initialized := true |} ]
           Sample.live) = (Ok tt, w')
         ∧ loadSession "session-0" w'
           = (Throw (HttpError 404 "Session not found"), w'))
  ∧ (∃ w', (touchSession Sample.env 0%nat ≫= λ _, sweep Sample.env) Sample.live
           = (Ok tt, w')
         ∧ loadSession "session-0" w' = (Ok 0%nat, w')).
Proof.
  split.
  - apply (sweep_evicts_idle_keeps_touched Sample.env
             (set_heap
                [ {| id := "session-0"; createdAt := 1000;
                     lastActivity := 2000 - SESSION_TIMEOUT_MS;
                     initialized := true |} ] Sample.live)
             "session-0" 0%nat
             {| id := "session-0"; createdAt := 1000;
                lastActivity := 2000 - SESSION_TIMEOUT_MS; initialized := true |});
      [reflexivity | reflexivity | vm_compute; discriminate].
  - destruct (sweep_evicts_idle_keeps_touched Sample.env Sample.live
                "session-0" 0%nat
                {| id := "session-0"; createdAt := 1000; lastActivity := 1000;
                   initialized := false |}) as [_ Htouched];
      [reflexivity | reflexivity |].
    destruct Htouched as (w' & Hrun & Hload & _); [vm_compute; reflexivity|].
    exists w'. split; assumption.
Defined.

(** ** The dispatcher *)

Section Dispatcher.
Context (env : Platform).

Lemma createSession_run (w : World) :
  createSession env w =
  (Ok (length (heap w)),
   {| heap := heap w ++ [new_session env w];
      sessions := <[uuidv4 env (draws w) := length (heap w)]> (sessions w);
      ticks := S (ticks w); draws := S (draws w); calls := calls w |}).
Proof. reflexivity. Qed.

Lemma initialize_run (fields : gmap string jsval) (session : option nat) (w : World) :
  fields !! "method" = Some (JStr "initialize") →
  handleRpcRequest env (JObj fields) session w =
  (Ok (initialize_result
         (protocolVersion env (js_get_opt (fields !! "params") "protocolVersion")),
       Some (uuidv4 env (draws w))),
   snd (createSession env w)).
Proof.
  intros Hmethod. unfold handleRpcRequest.
  rewrite (run_lift_ok _ (fields !! "method")) by done.
  rewrite Hmethod. eval_is_str. rewrite run_bind, createSession_run.
  rewrite (run_lift_ok _ (fields !! "params")) by done.
  rewrite run_bind. unfold deref. cbn [heap].
  by rewrite list_lookup_middle.
Qed.

(** C7. The result of a handshake carries the version the client asked
    for when that is a string of the supported set, and the latest version
    in every other case (no parameters, no version, a version that is not
    a string, a string that is not supported). *)
Theorem initialize_negotiates_version (request : jsval) (session : option nat)
    (w : World) :
  method_of request = Some (JStr "initialize") →
  let requested := js_get_opt (js_get_opt (Some request) "params") "protocolVersion" in
  ∃ result newSessionId w',
    handleRpcRequest env request session w = (Ok (result, Some newSessionId), w')
    ∧ (∀ v, requested = Some (JStr v) → v ∈ SUPPORTED_PROTOCOL_VERSIONS env →
         js_get_opt (Some result) "protocolVersion" = Some (JStr v))
    ∧ ((∀ v, requested = Some (JStr v) → v ∉ SUPPORTED_PROTOCOL_VERSIONS env) →
         js_get_opt (Some result) "protocolVersion"
         = Some (JStr (LATEST_PROTOCOL_VERSION env))).
Proof.
  intros Hmethod requested.
  destruct request as [| | | | | fields]; try discriminate.
  cbn in Hmethod. rewrite (initialize_run _ _ _ Hmethod).
  do 3 eexists. split; [reflexivity|].
  subst requested. cbn [js_get_opt initialize_result].
  rewrite lookup_insert_eq. unfold protocolVersion. split.
  - intros v -> Hin. by rewrite bool_decide_eq_true_2.
  - intros Hnot.
    destruct (js_get_opt (fields !! "params") "protocolVersion")
      as [[| | | v | |]|]; try done.
    rewrite bool_decide_eq_false_2; [done|]. by apply Hnot.
Qed.

End Dispatcher.

Lemma initialize_negotiates_version_witness :
  ∃ result newSessionId w',
    handleRpcRequest Sample.env Sample.initialize None Sample.empty
      = (Ok (result, Some newSessionId), w')
    ∧ js_get_opt (Some result) "protocolVersion" = Some (JStr "2024-11-05").
Proof.
  destruct (initialize_negotiates_version Sample.env Sample.initialize None
              Sample.empty) as (result & newSessionId & w' & Hrun & Hecho & _);
    [reflexivity|].
  exists result, newSessionId, w'. split; [exact Hrun|].
  apply Hecho; [reflexivity | vm_compute; set_solver].
Defined.

(** ** The POST handler *)

Section Handler.
Context (env : Platform).

#[local] Abbreviation nonnull := (λ message : jsval, message ≠ JNull).

Lemma js_get_method (message : jsval) :
  message ≠ JNull → js_get message "method" = Ok (method_of message).
Proof. by destruct message. Qed.

(** Partitioning succeeds on batches without [null] only. *)
Lemma partition_loop_nonnull (messages : list jsval) (acc parts : Partition) :
  partition_loop messages acc = Ok parts → Forall nonnull messages.
Proof.
  revert acc. induction messages as [| message rest IH]; intros acc Hrun.
  - constructor.
  - assert (message ≠ JNull) as Hnull.
    { intros ->. discriminate Hrun. }
    constructor; [done|].
    cbn [partition_loop] in Hrun.
    rewrite (isRequest_classify _ Hnull), (isNotification_classify _ Hnull) in Hrun.
    unfold mbind, res_bind in Hrun.
    repeat destruct (bool_decide _) in Hrun; by eapply IH.
Qed.

Lemma partition_loop_null (messages : list jsval) (acc : Partition) :
  JNull ∈ messages →
  partition_loop messages acc
  = Throw (JsError "TypeError: cannot read properties of null").
Proof.
  revert acc. induction messages as [| message rest IH]; intros acc Hin.
  - by apply elem_of_nil in Hin.
  - assert (message = JNull ∨ message ≠ JNull) as [->|Hnull]
      by (destruct message; (by left) || (by right)); [done|].
    apply elem_of_cons in Hin as [Heq|Hin]; [done|].
    cbn [partition_loop].
    rewrite (isRequest_classify _ Hnull), (isNotification_classify _ Hnull).
    unfold mbind, res_bind. repeat destruct (bool_decide _); by apply IH.
Qed.

Lemma partition_parts (messages : list jsval) (parts : Partition) :
  partitionMessages messages = Ok parts →
  Forall nonnull messages
  ∧ requests parts = of_kind Request messages
  ∧ notifications parts = of_kind Notification messages
  ∧ responses parts = of_kind Response messages.
Proof.
  intros Hrun. pose proof (partition_loop_nonnull _ _ _ Hrun) as Hall.
  split; [done|].
  rewrite (partition_filters _ Hall) in Hrun. by injection Hrun as <-.
Qed.

Lemma of_kind_nonnull (k : kind) (messages : list jsval) :
  Forall nonnull messages → Forall nonnull (of_kind k messages).
Proof.
  rewrite !Forall_forall. intros Hall message Hin.
  apply list_elem_of_filter in Hin as [_ Hin]. by apply Hall.
Qed.

Lemma js_some_method_is (name : string) (l : list jsval) :
  Forall nonnull l →
  js_some (method_is name) l = Ok (existsb (λ r, is_str (method_of r) name) l).
Proof.
  induction 1 as [| r rest Hnull _ IH]; [done|].
  cbn [js_some existsb].
  replace (method_is name r) with (Ok (is_str (method_of r) name) : res bool)
    by by destruct r.
  cbn. rewrite IH. by destruct (is_str (method_of r) name).
Qed.

Lemma js_some_method_is_not (name : string) (l : list jsval) :
  Forall nonnull l →
  js_some (method_is_not name) l
  = Ok (existsb (λ r, negb (is_str (method_of r) name)) l).
Proof.
  induction 1 as [| r rest Hnull _ IH]; [done|].
  cbn [js_some existsb].
  replace (method_is_not name r)
    with (Ok (negb (is_str (method_of r) name)) : res bool) by by destruct r.
  cbn. rewrite IH. by destruct (is_str (method_of r) name).
Qed.

(** *** Notifications *)

(** What one notification does to the world. *)
Lemma notify_run (session : nat) (notification : jsval) (w : World) :
  notification ≠ JNull →
  notify env session notification w =
  (Ok tt,
   if touches notification then
     {| heap := alter (set_lastActivity (Date_now env (ticks w))) session
                  (if marks_initialized notification
                   then alter (set_initialized true) session (heap w)
                   else heap w);
        sessions := sessions w; ticks := S (ticks w); draws := draws w;
        calls := calls w |}
   else w).
Proof.
  intros Hnull. unfold notify.
  rewrite (run_lift_ok _ (method_of notification)) by by apply js_get_method.
  unfold touches, marks_initialized.
  destruct (is_str (method_of notification) "initialized") eqn:Hinit; [done|].
  destruct (is_str (method_of notification) "notifications/cancelled"); [done|].
  by destruct (is_str (method_of notification) "notifications/progress").
Qed.

Lemma marks_initialized_touches (notification : jsval) :
  marks_initialized notification = true → touches notification = true.
Proof. unfold touches, marks_initialized. by intros ->. Qed.

(** Notifications leave the map, the identifiers and the tool service alone. *)
Lemma notify_all_frame (session : nat) (l : list jsval) (w : World) :
  Forall nonnull l →
  ∃ w', notify_all env session l w = (Ok tt, w')
        ∧ sessions w' = sessions w ∧ draws w' = draws w ∧ calls w' = calls w
        ∧ (existsb touches l = false → w' = w).
Proof.
  intros Hall. revert w. induction Hall as [| n rest Hnull _ IH]; intros w.
  - by exists w.
  - cbn [notify_all]. rewrite run_bind, (notify_run _ _ _ Hnull).
    destruct (touches n) eqn:Htouch.
    + edestruct IH as (w' & -> & Hs & Hd & Hc & _). exists w'.
      repeat split; try done. cbn [existsb]. by rewrite Htouch.
    + destruct (IH w) as (w' & -> & Hs & Hd & Hc & Hsame). exists w'.
      repeat split; try done. cbn [existsb]. by rewrite Htouch.
Qed.

(** What the notifications of a batch do to the session they are sent to. *)
Lemma notify_all_session (session : nat) (l : list jsval) (w : World) (s : Session) :
  Forall nonnull l → heap w !! session = Some s →
  ∃ w' s', notify_all env session l w = (Ok tt, w')
        ∧ heap w' !! session = Some s'
        ∧ id s' = id s
        ∧ initialized s' = initialized s || existsb marks_initialized l
        ∧ (existsb touches l = true →
             (ticks w < ticks w')%nat
             ∧ lastActivity s' = Date_now env (pred (ticks w'))).
Proof.
  intros Hall. revert w s.
  induction Hall as [| n rest Hnull Hrest IH]; intros w s Hobj.
  - exists w, s. by rewrite orb_false_r.
  - cbn [notify_all existsb]. rewrite run_bind, (notify_run _ _ _ Hnull).
    destruct (touches n) eqn:Htouch.
    + set (h1 := if marks_initialized n
                 then alter (set_initialized true) session (heap w) else heap w).
      set (s1 := set_lastActivity (Date_now env (ticks w))
                   (if marks_initialized n then set_initialized true s else s)).
      set (w1 := {| heap := alter _ session h1; sessions := sessions w;
                    ticks := S (ticks w); draws := draws w; calls := calls w |}).
      assert (heap w1 !! session = Some s1) as Hobj1.
      { unfold w1, h1, s1. cbn [heap]. rewrite list_lookup_alter_eq.
        destruct (marks_initialized n); [rewrite list_lookup_alter_eq|];
          by rewrite Hobj. }
      destruct (IH w1 s1 Hobj1) as (w' & s' & Hrun & Hobj' & Hid & Hinit & Hact).
      destruct (notify_all_frame session rest w1) as (w'' & Hrun' & _ & _ & _ & Hsame);
        [done|].
      assert (w'' = w') as -> by congruence.
      exists w', s'. split; [done|]. split; [done|]. split.
      { rewrite Hid. unfold s1. by destruct (marks_initialized n). }
      split.
      { rewrite Hinit. unfold s1. cbn [existsb].
        destruct (marks_initialized n); cbn;
          by destruct (initialized s), (existsb marks_initialized rest). }
      intros _. destruct (existsb touches rest) eqn:Hlater.
      * destruct Hact as [Hlt Hlast]; [done|]. split; [|done].
        unfold w1 in Hlt. cbn in Hlt. lia.
      * rewrite Hsame in * by done. split; [cbn; lia|].
        rewrite Hobj1 in Hobj'. by injection Hobj' as <-.
    + assert (marks_initialized n = false) as ->.
      { destruct (marks_initialized n) eqn:Hm; [|done].
        by rewrite (marks_initialized_touches _ Hm) in Htouch. }
      cbn [orb]. by apply IH.
Qed.

Lemma processNotifications_none (headerSessionId : option string) (w : World) :
  processNotifications env headerSessionId [] w = (Ok tt, w).
Proof. reflexivity. Qed.

Lemma processNotifications_no_header (l : list jsval) (w : World) :
  l ≠ [] →
  processNotifications env None l w
  = (Throw (HttpError 400 "Missing Mcp-Session-Id header"), w).
Proof. by destruct l. Qed.

Lemma requireSessionHeader_some (x : option string) (sessionId : string) :
  or_undefined x = Some sessionId →
  requireSessionHeader (Some sessionId) = Ok sessionId.
Proof.
  destruct x as [[| c rest]|]; try done. by intros [= <-].
Qed.

Lemma processNotifications_unknown (x : option string) (sessionId : string)
    (l : list jsval) (w : World) :
  l ≠ [] → or_undefined x = Some sessionId → sessions w !! sessionId = None →
  processNotifications env (Some sessionId) l w
  = (Throw (HttpError 404 "Session not found"), w).
Proof.
  intros Hl Hid Hmap. destruct l as [| n rest]; [done|].
  unfold processNotifications.
  rewrite (run_lift_ok _ sessionId) by by eapply requireSessionHeader_some.
  rewrite run_bind. unfold loadSession. by rewrite Hmap.
Qed.

Lemma processNotifications_live (x : option string) (sessionId : string)
    (session : nat) (l : list jsval) (w : World) :
  or_undefined x = Some sessionId → sessions w !! sessionId = Some session →
  l ≠ [] →
  processNotifications env (Some sessionId) l w = notify_all env session l w.
Proof.
  intros Hid Hmap Hl. destruct l as [| n rest]; [done|].
  unfold processNotifications.
  rewrite (run_lift_ok _ sessionId) by by eapply requireSessionHeader_some.
  rewrite run_bind. unfold loadSession. by rewrite Hmap.
Qed.

(** *** The handler once the batch is decoded *)

Lemma post_decoded (req : HttpRequest) (w : World) (messages : list jsval)
    (parts : Partition) :
  enforceAcceptHeader req = Ok tt → enforceJsonContent req = Ok tt →
  normalizeMessages env (body req) = Ok messages → messages ≠ [] →
  partitionMessages messages = Ok parts →
  post env req w =
  finish ((processNotifications env (or_undefined (header_session_id req))
             (notifications parts)
           ≫= λ _, respond env (or_undefined (header_session_id req))
                     (requests parts)) w).
Proof.
  intros Haccept Hcontent Hbody Hne Hparts. unfold post, post_body.
  rewrite (run_lift_ok _ tt) by done. rewrite (run_lift_ok _ tt) by done.
  rewrite (run_lift_ok _ messages) by done.
  destruct messages as [| m rest]; [done|].
  by rewrite (run_lift_ok _ parts).
Qed.

Lemma partition_nil (parts : Partition) :
  partitionMessages [] = Ok parts →
  requests parts = [] ∧ notifications parts = [].
Proof. intros [= <-]. done. Qed.

Lemma existsb_both_length {A} (p : A → bool) (l : list A) :
  existsb p l = true → existsb (λ x, negb (p x)) l = true → (1 < length l)%nat.
Proof.
  destruct l as [| a [| b l]]; cbn; try done; [|lia].
  by destruct (p a).
Qed.

Lemma existsb_elem_of {A} (p : A → bool) (l : list A) :
  existsb p l = true ↔ ∃ x, x ∈ l ∧ p x = true.
Proof.
  rewrite existsb_exists. by setoid_rewrite list_elem_of_In.
Qed.

Lemma dispatch_tasks (l : list jsval) (session : option nat) (w : World) :
  ∃ tasks w', dispatch env l session w = (Ok tasks, w')
              ∧ map task_request tasks = l.
Proof.
  revert w. induction l as [| request rest IH]; intros w.
  - by exists [], w.
  - cbn [dispatch]. rewrite run_bind. unfold attempt.
    destruct (handleRpcRequest env request session w) as [outcome w1].
    rewrite run_bind. destruct (IH w1) as (tasks & w' & -> & Hmap).
    eexists _, w'. split; [reflexivity|]. cbn. by rewrite Hmap.
Qed.

Lemma respond_mixed (headerSessionId : option string) (l : list jsval) (w : World) :
  Forall nonnull l → existsb is_initialize l = true → (1 < length l)%nat →
  respond env headerSessionId l w
  = (Throw (HttpError 400 "Initialize request must be sent separately."), w).
Proof.
  intros Hall Hinit Hlen. destruct l as [| r rest]; [done|].
  unfold respond.
  rewrite (run_lift_ok _ true)
    by (rewrite js_some_method_is by done; by f_equal).
  apply Nat.ltb_lt in Hlen. by rewrite Hlen.
Qed.

(** Without an [initialize] among several, the session of the batch is
    looked for next. *)
Lemma respond_unmixed (headerSessionId : option string) (l : list jsval) (w : World) :
  Forall nonnull l → l ≠ [] →
  existsb is_initialize l && (1 <? length l)%nat = false →
  respond env headerSessionId l w =
  (bind_session (existsb (λ r, negb (is_initialize r)) l) headerSessionId
   ≫= λ session, dispatch env l session ≫= λ tasks, mret (Streaming tasks)) w.
Proof.
  intros Hall Hne Hmix. destruct l as [| r rest]; [done|].
  unfold respond.
  rewrite (run_lift_ok _ (existsb is_initialize (r :: rest)))
    by by rewrite js_some_method_is.
  rewrite Hmix.
  by rewrite (run_lift_ok _ (existsb (λ r, negb (is_initialize r)) (r :: rest)))
    by by rewrite js_some_method_is_not.
Qed.

Lemma respond_requires_session (x : option string) (l : list jsval) (w : World) :
  Forall nonnull l →
  existsb (λ r, negb (is_initialize r)) l = true →
  match or_undefined x with
  | Some sessionId => sessions w !! sessionId = None
  | None => True
  end →
  respond env (or_undefined x) l w =
  (Throw (if existsb is_initialize l
          then HttpError 400 "Initialize request must be sent separately."
          else match or_undefined x with
               | Some _ => HttpError 404 "Session not found"
               | None => HttpError 400 "Missing Mcp-Session-Id header"
               end), w).
Proof.
  intros Hall Hother Hsession.
  destruct (existsb is_initialize l) eqn:Hinit.
  - apply respond_mixed; try done. by apply (existsb_both_length is_initialize).
  - rewrite respond_unmixed; try done.
    + rewrite Hother. unfold bind_session.
      destruct (or_undefined x) as [sessionId|] eqn:Hid; [|done].
      rewrite run_bind.
      rewrite (run_lift_ok _ sessionId) by by eapply requireSessionHeader_some.
      rewrite run_bind. unfold loadSession. by rewrite Hsession.
    + by intros ->.
    + by rewrite Hinit.
Qed.

Lemma requests_facts (messages : list jsval) (parts : Partition) :
  partitionMessages messages = Ok parts →
  Forall nonnull (requests parts) ∧ Forall nonnull (notifications parts)
  ∧ (requests parts ≠ [] ∨ notifications parts ≠ [] → messages ≠ []).
Proof.
  intros Hparts. destruct (partition_parts _ _ Hparts) as (Hall & -> & -> & _).
  split; [by apply of_kind_nonnull|]. split; [by apply of_kind_nonnull|].
  intros Hsome ->. destruct Hsome as [Hne | Hne]; by apply Hne.
Qed.

(** C2, as the code has it. A batch with a request other than
    [initialize] fails before any request is dispatched and leaves the
    world as it was: with 400 when no session identifier is supplied; with
    404 when the identifier supplied resolves to no session, except that a
    batch without notifications that also holds an [initialize] request is
    refused with 400 by the check of the batch, which comes first. *)
Theorem post_requires_session (req : HttpRequest) (w : World)
    (messages : list jsval) (parts : Partition) :
  enforceAcceptHeader req = Ok tt → enforceJsonContent req = Ok tt →
  normalizeMessages env (body req) = Ok messages →
  partitionMessages messages = Ok parts →
  (∃ r, r ∈ requests parts ∧ is_initialize r = false) →
  (or_undefined (header_session_id req) = None →
     ∃ message, post env req w = (Replied 400 (Some message), w))
  ∧ (∀ sessionId,
       or_undefined (header_session_id req) = Some sessionId →
       sessions w !! sessionId = None →
       post env req w =
       (match notifications parts with
        | [] =>
            if existsb is_initialize (requests parts)
            then Replied 400 (Some "Initialize request must be sent separately.")
            else Replied 404 (Some "Session not found")
        | _ => Replied 404 (Some "Session not found")
        end, w)).
Proof.
  intros Haccept Hcontent Hbody Hparts (r & Hin & Hother).
  destruct (requests_facts _ _ Hparts) as (Hreqs & Hnots & Hne).
  assert (existsb (λ r, negb (is_initialize r)) (requests parts) = true) as Hsome.
  { apply existsb_elem_of. exists r. by rewrite Hother. }
  assert (requests parts ≠ []) as Hreq
    by (intros Hnil; rewrite Hnil in Hin; by apply elem_of_nil in Hin).
  rewrite (post_decoded req w messages parts) by auto.
  split.
  - intros Hid. destruct (notifications parts) as [| n ns] eqn:Hn.
    + rewrite run_bind, processNotifications_none.
      rewrite respond_requires_session by (try done; by rewrite Hid).
      rewrite Hid. destruct (existsb is_initialize (requests parts)); by eexists.
    + rewrite Hid, run_bind, processNotifications_no_header by done. by eexists.
  - intros sessionId Hid Hmap. destruct (notifications parts) as [| n ns] eqn:Hn.
    + rewrite run_bind, processNotifications_none.
      rewrite respond_requires_session by (try done; by rewrite Hid).
      rewrite Hid. by destruct (existsb is_initialize (requests parts)).
    + rewrite Hid, run_bind.
      by rewrite (processNotifications_unknown (header_session_id req)).
Qed.

(** C3, as the code has it. A batch whose requests hold an [initialize]
    and at least one more is refused as a whole: no request is dispatched
    (no session is created, no tool is called, the map of sessions is
    unchanged). The status is 400, from the check of the batch or from a
    missing session header, unless the batch also carries notifications
    and the session identifier resolves to no session: then it is 404. The
    world is the one the notifications leave. *)
Theorem post_rejects_mixed_handshake (req : HttpRequest) (w : World)
    (messages : list jsval) (parts : Partition) :
  enforceAcceptHeader req = Ok tt → enforceJsonContent req = Ok tt →
  normalizeMessages env (body req) = Ok messages →
  partitionMessages messages = Ok parts →
  (∃ r, r ∈ requests parts ∧ is_initialize r = true) →
  (1 < length (requests parts))%nat →
  ∃ status message w',
    post env req w = (Replied status (Some message), w')
    ∧ sessions w' = sessions w ∧ draws w' = draws w ∧ calls w' = calls w
    ∧ match notifications parts, or_undefined (header_session_id req) with
      | [], _ | _ :: _, None => status = 400 ∧ w' = w
      | _ :: _, Some sessionId =>
          match sessions w !! sessionId with
          | None => status = 404 ∧ w' = w
          | Some session =>
              status = 400
              ∧ w' = snd (notify_all env session (notifications parts) w)
          end
      end.
Proof.
  intros Haccept Hcontent Hbody Hparts (r & Hin & Hinit) Hlen.
  destruct (requests_facts _ _ Hparts) as (Hreqs & Hnots & Hne).
  assert (existsb is_initialize (requests parts) = true) as Hsome.
  { apply existsb_elem_of. by exists r. }
  assert (requests parts ≠ []) as Hreq
    by (intros Hnil; rewrite Hnil in Hin; by apply elem_of_nil in Hin).
  rewrite (post_decoded req w messages parts) by auto.
  destruct (notifications parts) as [| n ns] eqn:Hn.
  - rewrite run_bind, processNotifications_none, respond_mixed by done.
    by eexists _, _, w.
  - destruct (or_undefined (header_session_id req)) as [sessionId|] eqn:Hid.
    + destruct (sessions w !! sessionId) as [session|] eqn:Hmap.
      * rewrite run_bind.
        rewrite (processNotifications_live (header_session_id req) _ session)
          by done.
        destruct (notify_all_frame session (n :: ns) w Hnots)
          as (w1 & Hrun & Hs & Hd & Hc & _).
        rewrite Hrun, respond_mixed by done.
        by eexists _, _, w1.
      * rewrite run_bind.
        rewrite (processNotifications_unknown (header_session_id req)) by done.
        by eexists _, _, w.
    + rewrite run_bind, processNotifications_no_header by done.
      by eexists _, _, w.
Qed.

(** C8. A batch of notifications only, sent with the identifier of a live
    session, is answered with an empty 202 and opens no stream; when one
    of them is [initialized] the session is marked initialized and its
    last activity is the clock reading of the last touch of this call. The
    same batch with an identifier that resolves to no session is refused
    with 404 and changes nothing. *)
Theorem post_notifications_only (req : HttpRequest) (w : World)
    (messages : list jsval) (parts : Partition) (sessionId : string) :
  enforceAcceptHeader req = Ok tt → enforceJsonContent req = Ok tt →
  normalizeMessages env (body req) = Ok messages →
  partitionMessages messages = Ok parts →
  requests parts = [] → notifications parts ≠ [] →
  or_undefined (header_session_id req) = Some sessionId →
  (∀ session s,
     sessions w !! sessionId = Some session → heap w !! session = Some s →
     ∃ w' s',
       post env req w = (Replied 202 None, w')
       ∧ sessions w' = sessions w
       ∧ heap w' !! session = Some s'
       ∧ (existsb marks_initialized (notifications parts) = true →
            initialized s' = true
            ∧ (ticks w < ticks w')%nat
            ∧ lastActivity s' = Date_now env (pred (ticks w'))))
  ∧ (sessions w !! sessionId = None →
     post env req w = (Replied 404 (Some "Session not found"), w)).
Proof.
  intros Haccept Hcontent Hbody Hparts Hreq Hnot Hid.
  destruct (requests_facts _ _ Hparts) as (_ & Hnots & Hne).
  rewrite (post_decoded req w messages parts) by auto.
  rewrite Hid, Hreq. split.
  - intros session s Hmap Hobj. rewrite run_bind.
    rewrite (processNotifications_live (header_session_id req) _ session) by done.
    destruct (notify_all_session session _ w s Hnots Hobj)
      as (w' & s' & Hrun & Hobj' & _ & Hinit & Hact).
    destruct (notify_all_frame session _ w Hnots) as (w'' & Hrun' & Hs & _).
    assert (w'' = w') as -> by congruence.
    rewrite Hrun. exists w', s'. do 3 (split; [done|]).
    intros Hmarked.
    assert (existsb touches (notifications parts) = true) as Htouched.
    { apply existsb_elem_of in Hmarked as (n & Hin & Hm).
      apply existsb_elem_of. exists n. split; [done|].
      by apply marks_initialized_touches. }
    destruct (Hact Htouched) as [Hlt Hlast].
    repeat split; try done. rewrite Hinit, Hmarked. apply orb_true_r.
  - intros Hmap. rewrite run_bind.
    by rewrite (processNotifications_unknown (header_session_id req)).
Qed.

(** C10. In a batch of notifications and requests sent with the
    identifier of a live session, the notifications are applied first and
    the checks on the requests run in the world they leave: the session is
    marked initialized and touched by then. When the batch is then
    refused with 400 because an [initialize] request is not alone, that
    world is the one the call leaves. *)
Theorem post_notifications_first (req : HttpRequest) (w : World)
    (messages : list jsval) (parts : Partition) (sessionId : string)
    (session : nat) (s : Session) :
  enforceAcceptHeader req = Ok tt → enforceJsonContent req = Ok tt →
  normalizeMessages env (body req) = Ok messages →
  partitionMessages messages = Ok parts →
  notifications parts ≠ [] → requests parts ≠ [] →
  or_undefined (header_session_id req) = Some sessionId →
  sessions w !! sessionId = Some session → heap w !! session = Some s →
  ∃ w1 s1,
    processNotifications env (Some sessionId) (notifications parts) w = (Ok tt, w1)
    ∧ post env req w = finish (respond env (Some sessionId) (requests parts) w1)
    ∧ heap w1 !! session = Some s1
    ∧ initialized s1 = initialized s || existsb marks_initialized (notifications parts)
    ∧ (existsb touches (notifications parts) = true →
         (ticks w < ticks w1)%nat
         ∧ lastActivity s1 = Date_now env (pred (ticks w1)))
    ∧ (existsb is_initialize (requests parts) = true →
       (1 < length (requests parts))%nat →
       post env req w
       = (Replied 400 (Some "Initialize request must be sent separately."), w1)).
Proof.
  intros Haccept Hcontent Hbody Hparts Hnot Hreq Hid Hmap Hobj.
  destruct (requests_facts _ _ Hparts) as (Hreqs & Hnots & Hne).
  rewrite (post_decoded req w messages parts) by auto.
  rewrite Hid, run_bind.
  rewrite (processNotifications_live (header_session_id req) _ session) by done.
  destruct (notify_all_session session _ w s Hnots Hobj)
    as (w1 & s1 & Hrun & Hobj1 & _ & Hinit & Hact).
  rewrite Hrun. exists w1, s1. repeat split; try done.
  - by apply Hact.
  - by apply Hact.
  - intros Hsome Hlen. by rewrite respond_mixed.
Qed.

(** *** What a [null] in the batch does *)

Lemma processNotifications_outcome (headerSessionId : option string)
    (l : list jsval) (w : World) :
  Forall nonnull l →
  ∃ w', processNotifications env headerSessionId l w = (Ok tt, w')
        ∨ ∃ status message, (status = 400 ∨ status = 404)
            ∧ processNotifications env headerSessionId l w
              = (Throw (HttpError status message), w').
Proof.
  intros Hall. destruct l as [| n rest]; [exists w; by left|].
  destruct headerSessionId as [[| c sessionId]|].
  - exists w. right. exists 400, "Missing Mcp-Session-Id header". split; [by left|done].
  - destruct (sessions w !! String c sessionId) as [session|] eqn:Hmap.
    + rewrite (processNotifications_live (Some (String c sessionId)) _ session)
        by done.
      destruct (notify_all_frame session _ w Hall) as (w' & Hrun & _).
      exists w'. by left.
    + rewrite (processNotifications_unknown (Some (String c sessionId))) by done.
      exists w. right. exists 404, "Session not found". split; [by right|done].
  - exists w. right. exists 400, "Missing Mcp-Session-Id header". split; [by left|done].
Qed.

Lemma bind_session_outcome (requiresSession : bool)
    (headerSessionId : option string) (w : World) :
  (∃ session, bind_session requiresSession headerSessionId w = (Ok session, w))
  ∨ ∃ status message, (status = 400 ∨ status = 404)
      ∧ bind_session requiresSession headerSessionId w
        = (Throw (HttpError status message), w).
Proof.
  unfold bind_session. destruct requiresSession.
  - destruct headerSessionId as [[| c sessionId]|].
    + right. exists 400, "Missing Mcp-Session-Id header". split; [by left|done].
    + rewrite (run_lift_ok _ (String c sessionId)) by done.
      rewrite run_bind. unfold loadSession.
      destruct (sessions w !! String c sessionId) as [session|].
      * left. by exists (Some session).
      * right. exists 404, "Session not found". split; [by right|done].
    + right. exists 400, "Missing Mcp-Session-Id header". split; [by left|done].
  - left. destruct headerSessionId as [[| c sessionId]|]; by eexists.
Qed.

Lemma respond_outcome (headerSessionId : option string) (l : list jsval) (w : World) :
  Forall nonnull l →
  ∀ error, fst (finish (respond env headerSessionId l w)) ≠ Replied 500 error.
Proof.
  intros Hall error. destruct l as [| r rest]; [done|].
  remember (r :: rest) as l eqn:Hl. assert (l ≠ []) as Hne by by rewrite Hl.
  clear Hl. destruct (existsb is_initialize l && (1 <? length l)%nat) eqn:Hmix.
  - apply andb_true_iff in Hmix as [Hinit Hlen]. apply Nat.ltb_lt in Hlen.
    by rewrite respond_mixed.
  - rewrite respond_unmixed by done. rewrite run_bind.
    destruct (bind_session_outcome (existsb (λ r, negb (is_initialize r)) l)
                headerSessionId w)
      as [[session ->] | (status & message & Hstatus & ->)].
    + rewrite run_bind.
      destruct (dispatch_tasks l session w) as (tasks & w' & -> & _). done.
    + cbn. destruct Hstatus as [-> | ->]; congruence.
Qed.

(** C9, as the code has it. A body that is an array with a [null] in it
    is answered with 500: reading [method] of [null] throws, and
    [handleHttpError] maps what is not an [HttpError] to 500. An array
    without [null] is never answered with 500: numbers, strings, booleans
    and arrays have no [method], the membership test is not reached, and
    they are filed as responses. *)
Theorem post_null_element (req : HttpRequest) (w : World) (items : list jsval) :
  enforceAcceptHeader req = Ok tt → enforceJsonContent req = Ok tt →
  body req = Some (JArr items) →
  (JNull ∈ items →
     post env req w = (Replied 500 (Some "Internal server error"), w))
  ∧ (Forall nonnull items →
     ∀ error, fst (post env req w) ≠ Replied 500 error).
Proof.
  intros Haccept Hcontent Hbody.
  assert (normalizeMessages env (body req) = Ok items) as Hnorm
    by by rewrite Hbody.
  split.
  - intros Hnull. unfold post, post_body.
    rewrite (run_lift_ok _ tt) by done. rewrite (run_lift_ok _ tt) by done.
    rewrite (run_lift_ok _ items) by done.
    destruct items as [| m rest] eqn:Hitems; [by apply elem_of_nil in Hnull|].
    by rewrite (run_lift_throw _ (JsError "TypeError: cannot read properties of null"))
      by by apply partition_loop_null.
  - intros Hall error. destruct items as [| m rest] eqn:Hitems.
    + unfold post, post_body.
      rewrite (run_lift_ok _ tt) by done. rewrite (run_lift_ok _ tt) by done.
      by rewrite (run_lift_ok _ []) by done.
    + rewrite <- Hitems in *.
      pose proof (partition_filters _ Hall) as Hparts.
      destruct (requests_facts _ _ Hparts) as (Hreqs & Hnots & _).
      set (parts := {| requests := of_kind Request items |}) in *.
      rewrite (post_decoded req w items parts); try done; [|by rewrite Hitems].
      rewrite run_bind.
      destruct (processNotifications_outcome
                  (or_undefined (header_session_id req)) (notifications parts) w Hnots)
        as (w' & [-> | (status & message & Hstatus & ->)]).
      * by apply respond_outcome.
      * cbn. destruct Hstatus as [-> | ->]; congruence.
Qed.

End Handler.

(** ** The stream *)

Section Streaming.
Context (env : Platform).

Lemma settle_pending (t : task) (rest : list task) (st : Stream) :
  pending (settle t rest st) = rest.
Proof. unfold settle. by destruct (task_outcome t) as [[result newSessionId]|]. Qed.

Lemma settle_written (t : task) (rest : list task) (st : Stream) :
  written (settle t rest st) = written st ++ [frame_of t].
Proof.
  unfold settle, frame_of. by destruct (task_outcome t) as [[result newSessionId]|].
Qed.


(** Every step moves the frame of one awaited task to the stream. *)
Lemma step_frames (st st' : Stream) :
  step st st' →
  written st' ++ map frame_of (pending st')
    ≡ₚ written st ++ map frame_of (pending st).
Proof.
  intros [st0 before t after Hpending].
  rewrite settle_pending, settle_written, Hpending, !map_app, map_cons.
  rewrite <- app_assoc. apply Permutation_app_head. cbn.
  apply Permutation_middle.
Qed.

Lemma steps_frames (st st' : Stream) :
  rtc step st st' →
  written st' ++ map frame_of (pending st')
    ≡ₚ written st ++ map frame_of (pending st).
Proof.
  induction 1 as [st | st st1 st' Hstep _ IH]; [done|].
  rewrite IH. by apply step_frames.
Qed.

Lemma runs_to_frames (tasks : list task) (st : Stream) :
  runs_to (openSseStream tasks) st → written st ≡ₚ map frame_of tasks.
Proof.
  intros [Hsteps Hended]. apply steps_frames in Hsteps.
  unfold ended in Hended. rewrite Hended in Hsteps.
  by rewrite app_nil_r in Hsteps.
Qed.

(** The tasks can always settle: the stream ends. *)
Lemma drain_runs (l : list task) (st : Stream) :
  pending st = l → runs_to st (drain l st).
Proof.
  revert st. induction l as [| t rest IH]; intros st Hpending.
  - split; [apply rtc_refl | done].
  - destruct (IH (settle t rest st) (settle_pending _ _ _)) as [Hsteps Hended].
    split; [|done]. eapply rtc_l; [|exact Hsteps].
    by apply (step_settle st [] t rest).
Qed.


End Streaming.

(** ** The theorems at work on the sample platform *)

Lemma post_requires_session_witness :
  post Sample.env (Sample.request (Some "ghost") (JArr [Sample.ping])) Sample.empty
  = (Replied 404 (Some "Session not found"), Sample.empty).
Proof.
  destruct (post_requires_session Sample.env
              (Sample.request (Some "ghost") (JArr [Sample.ping])) Sample.empty
              [Sample.ping]
              {| requests := [Sample.ping]; notifications := []; responses := [] |})
    as [_ Hunknown].
  1-4: reflexivity.
  - exists Sample.ping. split; [left | reflexivity].
  - exact (Hunknown "ghost" eq_refl eq_refl).
Defined.

(** C2 fails as stated: an identifier that resolves to no session, on a
    batch with a [ping] next to an [initialize], is answered 400, not 404. *)
Lemma post_unknown_session_mixed_batch :
  sessions Sample.empty !! "ghost" = None
  ∧ post Sample.env
      (Sample.request (Some "ghost") (JArr [Sample.initialize; Sample.ping]))
      Sample.empty
    = (Replied 400 (Some "Initialize request must be sent separately."),
       Sample.empty).
Proof. split; vm_compute; reflexivity. Qed.

Lemma post_rejects_mixed_handshake_witness :
  ∃ message w',
    post Sample.env
      (Sample.request None (JArr [Sample.initialize; Sample.ping])) Sample.empty
    = (Replied 400 (Some message), w')
    ∧ draws w' = 0%nat ∧ calls w' = [].
Proof.
  destruct (post_rejects_mixed_handshake Sample.env
              (Sample.request None (JArr [Sample.initialize; Sample.ping]))
              Sample.empty [Sample.initialize; Sample.ping]
              {| requests := [Sample.initialize; Sample.ping];
                 notifications := []; responses := [] |})
    as (status & message & w' & Hpost & _ & Hdraws & Hcalls & Hstatus & _).
  1-4: reflexivity.
  - exists Sample.initialize. split; [left | reflexivity].
  - cbn; lia.
  - exists message, w'. rewrite Hpost, Hstatus. by repeat split.
Defined.

(** C3 fails as stated: with a notification in the batch and an identifier
    that resolves to no session, the batch is refused with 404, not 400. *)
Lemma post_mixed_handshake_unknown_session :
  post Sample.env
    (Sample.request (Some "ghost")
       (JArr [Sample.initialized_note; Sample.initialize; Sample.ping]))
    Sample.empty
  = (Replied 404 (Some "Session not found"), Sample.empty).
Proof. vm_compute. reflexivity. Qed.

Lemma post_notifications_only_witness :
  ∃ w' s',
    post Sample.env
      (Sample.request (Some "session-0") (JArr [Sample.initialized_note]))
      Sample.live
    = (Replied 202 None, w')
    ∧ heap w' !! 0%nat = Some s'
    ∧ initialized s' = true
    ∧ (ticks Sample.live < ticks w')%nat.
Proof.
  destruct (post_notifications_only Sample.env
              (Sample.request (Some "session-0") (JArr [Sample.initialized_note]))
              Sample.live [Sample.initialized_note]
              {| requests := []; notifications := [Sample.initialized_note];
                 responses := [] |} "session-0")
    as [Hlive _].
  1-5, 7: reflexivity.
  1: discriminate.
  destruct (Hlive 0%nat
              {| id := "session-0"; createdAt := 1000; lastActivity := 1000;
                 initialized := false |} eq_refl eq_refl)
    as (w' & s' & Hpost & _ & Hobj & Hmarked).
  destruct Hmarked as (Hinit & Hlt & _); [reflexivity|].
  by exists w', s'.
Defined.

Lemma post_notifications_first_witness :
  ∃ w1 s1,
    post Sample.env
      (Sample.request (Some "session-0")
         (JArr [Sample.initialized_note; Sample.initialize; Sample.ping]))
      Sample.live
    = (Replied 400 (Some "Initialize request must be sent separately."), w1)
    ∧ heap w1 !! 0%nat = Some s1
    ∧ initialized s1 = true.
Proof.
  destruct (post_notifications_first Sample.env
              (Sample.request (Some "session-0")
                 (JArr [Sample.initialized_note; Sample.initialize; Sample.ping]))
              Sample.live
              [Sample.initialized_note; Sample.initialize; Sample.ping]
              {| requests := [Sample.initialize; Sample.ping];
                 notifications := [Sample.initialized_note]; responses := [] |}
              "session-0" 0%nat
              {| id := "session-0"; createdAt := 1000; lastActivity := 1000;
                 initialized := false |})
    as (w1 & s1 & _ & _ & Hobj & Hinit & _ & Hrefused).
  1-4, 7-9: reflexivity.
  1-2: discriminate.
  exists w1, s1. split; [|by split].
  apply Hrefused; [reflexivity | cbn; lia].
Defined.

Lemma post_null_element_witness :
  post Sample.env (Sample.request None (JArr [JNum 5; JNull])) Sample.empty
  = (Replied 500 (Some "Internal server error"), Sample.empty).
Proof.
  destruct (post_null_element Sample.env
              (Sample.request None (JArr [JNum 5; JNull])) Sample.empty
              [JNum 5; JNull]) as [Hnull _].
  1-3: reflexivity.
  apply Hnull. right. left.
Defined.

(** C9 fails as stated: an array whose only element is a number is
    accepted with 202, the number being filed as a response. *)
Lemma post_number_element :
  post Sample.env (Sample.request None (JArr [JNum 5])) Sample.empty
  = (Replied 202 None, Sample.empty).
Proof. vm_compute. reflexivity. Qed.

Lemma sample_stream :
  post Sample.env (Sample.request (Some "session-0") Sample.batch) Sample.live
  = (Streaming Sample.tasks,
     snd (post Sample.env (Sample.request (Some "session-0") Sample.batch)
            Sample.live)).
Proof. vm_compute. reflexivity. Qed.

(** * Beyond the claims *)

(** ** Ending a session *)

(** X1. Deleting a live session answers 204 and removes its identifier
    from the map and nothing else: the session objects and every other
    identifier stay. From then on the identifier is unknown: deleting it
    again answers 404, and so does loading it. *)
Theorem mcp_delete_then_gone (w : World) (i : string) (r : nat) :
  i ≠ "" → sessions w !! i = Some r →
  ∃ w',
    mcp_delete (Some i) w = (Replied 204 None, w')
    ∧ heap w' = heap w
    ∧ sessions w' !! i = None
    ∧ (∀ k, k ≠ i → sessions w' !! k = sessions w !! k)
    ∧ mcp_delete (Some i) w' = (Replied 404 (Some "Session not found"), w')
    ∧ loadSession i w' = (Throw (HttpError 404 "Session not found"), w').
Proof.
  intros Hne Hmap. eexists. split; [|split; [|split; [|split; [|split]]]].
  - unfold mcp_delete. rewrite Hmap. by destruct i.
  - done.
  - cbn. apply lookup_delete_eq.
  - intros k Hk. cbn. by rewrite lookup_delete_ne.
  - unfold mcp_delete. cbn [sessions set_sessions].
    rewrite lookup_delete_eq. by destruct i.
  - unfold loadSession. cbn [sessions set_sessions]. by rewrite lookup_delete_eq.
Qed.

Lemma mcp_delete_then_gone_witness :
  ∃ w', mcp_delete (Some "session-0") Sample.live = (Replied 204 None, w')
        ∧ mcp_delete (Some "session-0") w'
          = (Replied 404 (Some "Session not found"), w').
Proof.
  destruct (mcp_delete_then_gone Sample.live "session-0" 0%nat)
    as (w' & Hfirst & _ & _ & _ & Hagain & _); [discriminate | reflexivity |].
  by exists w'.
Defined.

(** X2. A delete answers 204, 400 or 404. It answers 204 exactly when the
    header names a live session; 400 exactly when the header is missing or
    empty; and whenever it does not answer 204 it changes nothing. *)
Theorem mcp_delete_refusals (sessionId : option string) (w : World) :
  ∃ status error w',
    mcp_delete sessionId w = (Replied status error, w')
    ∧ (status = 204 ∨ status = 400 ∨ status = 404)
    ∧ (status = 204 ↔ ∃ i, or_undefined sessionId = Some i
                           ∧ is_Some (sessions w !! i))
    ∧ (status = 400 ↔ or_undefined sessionId = None)
    ∧ (status ≠ 204 → w' = w).
Proof.
  unfold mcp_delete. destruct sessionId as [[| c i]|]; cbn [or_undefined].
  - exists 400, (Some "Missing Mcp-Session-Id header"), w.
    repeat split; try done; try (by auto); by intros (i & ? & ?).
  - destruct (sessions w !! String c i) as [r|] eqn:Hmap.
    + eexists 204, None, _. repeat split; try done; try (by auto).
      intros _. exists (String c i). by rewrite Hmap.
    + exists 404, (Some "Session not found"), w.
      repeat split; try done; try (by auto).
      intros (k & [= <-] & Hsome). rewrite Hmap in Hsome. by destruct Hsome.
  - exists 400, (Some "Missing Mcp-Session-Id header"), w.
    repeat split; try done; try (by auto); by intros (i & ? & ?).
Qed.

(** ** What a POST keeps *)

Section Growing.
Context (env : Platform).

Lemma grows_refl (w : World) : grows w w.
Proof. split; try done. intros r s Hobj. by exists s. Qed.

Lemma grows_trans (w1 w2 w3 : World) : grows w1 w2 → grows w2 w3 → grows w1 w3.
Proof.
  intros H12 H23. split.
  - intros r s Hobj.
    destruct (grows_heap _ _ H12 r s Hobj) as (s2 & Hobj2 & Hid2 & Hat2 & Hinit2).
    destruct (grows_heap _ _ H23 r s2 Hobj2) as (s3 & Hobj3 & Hid3 & Hat3 & Hinit3).
    exists s3. repeat split; try congruence. auto.
  - intros i Hsome. by apply (grows_sessions _ _ H23), (grows_sessions _ _ H12).
  - pose proof (grows_ticks _ _ H12). pose proof (grows_ticks _ _ H23). lia.
  - pose proof (grows_draws _ _ H12). pose proof (grows_draws _ _ H23). lia.
  - etrans; [apply (grows_calls _ _ H12) | apply (grows_calls _ _ H23)].
  - intros Hwf. by apply (grows_well_formed _ _ H23), (grows_well_formed _ _ H12).
Qed.

Lemma growing_ret {A} (a : A) : growing (mret a : M A).
Proof. intros w. apply grows_refl. Qed.

Lemma growing_throw {A} (e : exn) : growing (throw e : M A).
Proof. intros w. apply grows_refl. Qed.

Lemma growing_lift {A} (r : res A) : growing (lift r).
Proof. intros w. apply grows_refl. Qed.

Lemma growing_bind {A B} (m : M A) (f : A → M B) :
  growing m → (∀ a, growing (f a)) → growing (m ≫= f).
Proof.
  intros Hm Hf w. rewrite run_bind. specialize (Hm w).
  destruct (m w) as [[a | e] w1]; cbn [snd] in *; [|done].
  eapply grows_trans; [exact Hm | apply Hf].
Qed.

Lemma growing_attempt {A} (m : M A) : growing m → growing (attempt m).
Proof.
  intros Hm w. specialize (Hm w). unfold attempt. by destruct (m w).
Qed.

Lemma growing_now : growing (now env).
Proof.
  intros w. split; cbn; try done; try lia. intros r s Hobj. by exists s.
Qed.

Lemma growing_uuid : growing (uuid env).
Proof.
  intros w. split; cbn; try done; try lia. intros r s Hobj. by exists s.
Qed.

Lemma growing_invoke (name : string) (args : option jsval) :
  growing (invoke env name args).
Proof.
  intros w. split; cbn; try done.
  - intros r s Hobj. by exists s.
  - by apply prefix_app_r.
Qed.

Lemma growing_loadSession (sessionId : string) : growing (loadSession sessionId).
Proof.
  intros w. unfold loadSession.
  destruct (sessions w !! sessionId); apply grows_refl.
Qed.

Lemma growing_deref (session : nat) : growing (deref session).
Proof.
  intros w. unfold deref. destruct (heap w !! session); apply grows_refl.
Qed.

Lemma growing_register (s : Session) : growing (register s).
Proof.
  intros w. unfold register. cbn [snd].
  split; cbn [heap sessions ticks draws calls set_heap set_sessions].
  - intros r s0 Hobj. exists s0. split; [|done]. by apply lookup_app_l_Some.
  - intros i Hsome. destruct (decide (id s = i)) as [->|Hne].
    + by rewrite lookup_insert_eq.
    + by rewrite lookup_insert_ne.
  - done.
  - done.
  - done.
  - intros Hwf i r. cbn [heap sessions set_heap set_sessions].
    destruct (decide (id s = i)) as [<-|Hne].
    + rewrite lookup_insert_eq. intros [= <-]. exists s.
      by rewrite list_lookup_middle.
    + rewrite lookup_insert_ne by done. intros Hmap.
      destruct (Hwf i r Hmap) as (s0 & Hobj & Hid). exists s0.
      split; [|done]. by apply lookup_app_l_Some.
Qed.

Lemma harmless_lastActivity (t : Z) : harmless (set_lastActivity t).
Proof. by intros s. Qed.

Lemma harmless_initialized : harmless (set_initialized true).
Proof. by intros s. Qed.

Lemma growing_mutate (session : nat) (f : Session → Session) :
  harmless f → growing (mutate session f).
Proof.
  intros Hf w. unfold mutate. cbn [snd].
  split; cbn [heap sessions ticks draws calls set_heap set_sessions]; try done.
  - intros r s Hobj. destruct (decide (session = r)) as [->|Hne].
    + exists (f s). rewrite list_lookup_alter_eq, Hobj. split; [done|]. apply Hf.
    + exists s. by rewrite list_lookup_alter_ne.
  - intros Hwf i r Hmap. destruct (Hwf i r Hmap) as (s & Hobj & Hid).
    cbn [heap set_heap]. destruct (decide (session = r)) as [->|Hne].
    + exists (f s). rewrite list_lookup_alter_eq, Hobj. split; [done|].
      by rewrite (proj1 (Hf s)).
    + exists s. by rewrite list_lookup_alter_ne.
Qed.

Lemma growing_touchSession (session : nat) : growing (touchSession env session).
Proof.
  apply growing_bind; [apply growing_now|].
  intros t. apply growing_mutate, harmless_lastActivity.
Qed.

Lemma growing_createSession : growing (createSession env).
Proof.
  apply growing_bind; [apply growing_uuid|]. intros i.
  apply growing_bind; [apply growing_now|]. intros t. apply growing_register.
Qed.

Lemma growing_notify (session : nat) (notification : jsval) :
  growing (notify env session notification).
Proof.
  apply growing_bind; [apply growing_lift|]. intros method.
  destruct (is_str method "initialized").
  - apply growing_bind; [apply growing_mutate, harmless_initialized|].
    intros _. apply growing_touchSession.
  - destruct (_ || _); [apply growing_touchSession | apply growing_ret].
Qed.

Lemma growing_notify_all (session : nat) (l : list jsval) :
  growing (notify_all env session l).
Proof.
  induction l as [| n rest IH]; [apply growing_ret|].
  apply growing_bind; [apply growing_notify | by intros _].
Qed.

Lemma growing_processNotifications (headerSessionId : option string) (l : list jsval) :
  growing (processNotifications env headerSessionId l).
Proof.
  destruct l as [| n rest]; [apply growing_ret|].
  apply growing_bind; [apply growing_lift|]. intros sessionId.
  apply growing_bind; [apply growing_loadSession|]. intros session.
  apply growing_notify_all.
Qed.

Lemma growing_handleRpcRequest (request : jsval) (session : option nat) :
  growing (handleRpcRequest env request session).
Proof.
  apply growing_bind; [apply growing_lift|]. intros method.
  destruct (is_str method "initialize").
  { apply growing_bind; [apply growing_createSession|]. intros newSession.
    apply growing_bind; [apply growing_lift|]. intros params.
    apply growing_bind; [apply growing_deref|]. intros created.
    apply growing_ret. }
  destruct (is_str method "ping").
  { apply growing_bind; [apply growing_lift|]. intros currentSession.
    apply growing_bind; [apply growing_touchSession|]. intros _.
    apply growing_ret. }
  destruct (is_str method "tools/list").
  { apply growing_bind; [apply growing_lift|]. intros currentSession.
    apply growing_bind; [apply growing_touchSession|]. intros _.
    apply growing_ret. }
  destruct (is_str method "tools/call"); [|apply growing_throw].
  apply growing_bind; [apply growing_lift|]. intros currentSession.
  apply growing_bind; [apply growing_touchSession|]. intros _.
  apply growing_bind; [apply growing_lift|]. intros params.
  destruct (js_get_opt params "name") as [[| | | name | |]|];
    try apply growing_throw.
  apply growing_bind; [apply growing_invoke|]. intros toolResult.
  apply growing_ret.
Qed.

Lemma growing_dispatch (l : list jsval) (session : option nat) :
  growing (dispatch env l session).
Proof.
  induction l as [| request rest IH]; [apply growing_ret|].
  apply growing_bind; [apply growing_attempt, growing_handleRpcRequest|].
  intros outcome. apply growing_bind; [exact IH|]. intros tasks.
  apply growing_ret.
Qed.

Lemma growing_bind_session (requiresSession : bool)
    (headerSessionId : option string) :
  growing (bind_session requiresSession headerSessionId).
Proof.
  destruct requiresSession.
  - apply growing_bind; [apply growing_lift|]. intros sessionId.
    apply growing_bind; [apply growing_loadSession|]. intros session.
    apply growing_ret.
  - destruct headerSessionId as [[| c i]|]; try apply growing_ret.
    intros w. apply grows_refl.
Qed.

Lemma growing_respond (headerSessionId : option string) (l : list jsval) :
  growing (respond env headerSessionId l).
Proof.
  destruct l as [| r rest]; [apply growing_ret|].
  apply growing_bind; [apply growing_lift|]. intros hasInitialize.
  destruct (_ && _); [apply growing_throw|].
  apply growing_bind; [apply growing_lift|]. intros requiresSession.
  apply growing_bind; [apply growing_bind_session|]. intros session.
  apply growing_bind; [apply growing_dispatch|]. intros tasks.
  apply growing_ret.
Qed.

Lemma growing_post_body (req : HttpRequest) : growing (post_body env req).
Proof.
  apply growing_bind; [apply growing_lift|]. intros _.
  apply growing_bind; [apply growing_lift|]. intros _.
  apply growing_bind; [apply growing_lift|]. intros messages.
  destruct messages as [| m rest]; [apply growing_throw|].
  apply growing_bind; [apply growing_lift|]. intros parts.
  apply growing_bind; [apply growing_processNotifications|]. intros _.
  apply growing_respond.
Qed.

(** X3. Whatever the request and however the call ends, a POST keeps the
    session objects it found, each with its identifier and its creation
    time; a session that was initialized stays initialized; no identifier
    leaves the map; and the record of the calls made to the tool service
    is only added to. *)
Theorem post_grows (req : HttpRequest) (w : World) :
  grows w (snd (post env req w)).
Proof.
  pose proof (growing_post_body req w) as Hgrows. unfold post, finish.
  by destruct (post_body env req w) as [[outcome | error] w'].
Qed.

End Growing.

(** ** The store under the three handlers *)

Section Store.
Context (env : Platform).

Lemma sweep_loop_lookup (t : Z) (h : list Session) (m : gmap string nat) (i : string) :
  sweep_loop t h (map_to_list m) m !! i =
  match m !! i with
  | Some r => if expired t h r then None else Some r
  | None => None
  end.
Proof.
  destruct (m !! i) as [r|] eqn:Hmap.
  - destruct (expired t h r) eqn:Hexp.
    + apply sweep_loop_evicts with r; [by apply elem_of_map_to_list | done].
    + rewrite sweep_loop_keeps; [done|].
      intros r' Hin. apply elem_of_map_to_list in Hin. congruence.
  - by apply sweep_loop_absent.
Qed.

(** X4. The sweep removes from the map exactly the identifiers of the
    sessions that have been idle for the timeout or longer at the time it
    reads the clock; every other identifier stays, and no session object
    is changed. *)
Theorem sweep_removes_exactly_idle (w : World) :
  ∃ w',
    sweep env w = (Ok tt, w')
    ∧ heap w' = heap w
    ∧ ∀ i, sessions w' !! i =
           match sessions w !! i with
           | Some r =>
               if expired (Date_now env (ticks w)) (heap w) r then None else Some r
           | None => None
           end.
Proof.
  eexists. split; [reflexivity|]. split; [done|].
  intros i. cbn [sessions set_sessions heap ticks]. apply sweep_loop_lookup.
Qed.

Lemma well_formed_subset (w w' : World) :
  heap w' = heap w →
  (∀ i r, sessions w' !! i = Some r → sessions w !! i = Some r) →
  well_formed w → well_formed w'.
Proof.
  intros Hheap Hsub Hwf i r Hmap. rewrite Hheap. by apply Hwf, Hsub.
Qed.

(** X5. A world in which every identifier of the map refers to a session
    object carrying that identifier stays so under a POST, under a delete
    and under the sweep. *)
Theorem handlers_keep_well_formed (req : HttpRequest)
    (sessionId : option string) (w : World) :
  well_formed w →
  well_formed (snd (post env req w))
  ∧ well_formed (snd (mcp_delete sessionId w))
  ∧ well_formed (snd (sweep env w)).
Proof.
  intros Hwf. split; [|split].
  - pose proof (growing_post_body env req w) as Hgrows. unfold post, finish.
    destruct (post_body env req w) as [[outcome | error] w'];
      by apply (grows_well_formed _ _ Hgrows).
  - unfold mcp_delete. destruct sessionId as [[| c i]|]; try done.
    destruct (sessions w !! String c i); [|done].
    apply (well_formed_subset w); [done | | done].
    intros k r. cbn [snd sessions set_sessions]. rewrite lookup_delete_Some.
    by intros [_ ?].
  - apply (well_formed_subset w); [done | | done].
    intros i r. cbn [snd sessions set_sessions sweep heap].
    unfold sweep. rewrite run_bind. cbn [now evict snd sessions set_sessions heap].
    rewrite sweep_loop_lookup. destruct (sessions w !! i) as [r'|]; [|done].
    by destruct (expired _ _ r').
Qed.

End Store.

Lemma sample_live_well_formed : well_formed Sample.live.
Proof.
  intros i r Hmap.
  change (sessions Sample.live)
    with ({[ "session-0" := 0%nat ]} : gmap string nat) in Hmap.
  apply lookup_singleton_Some in Hmap as [<- <-]. by eexists.
Qed.

Lemma handlers_keep_well_formed_witness :
  well_formed
    (snd (post Sample.env (Sample.request None Sample.initialize) Sample.live))
  ∧ well_formed (snd (mcp_delete (Some "session-0") Sample.live))
  ∧ well_formed (snd (sweep Sample.env Sample.live)).
Proof.
  exact (handlers_keep_well_formed Sample.env
           (Sample.request None Sample.initialize) (Some "session-0")
           Sample.live sample_live_well_formed).
Defined.

(** ** Headers and framing *)

Section Decoding.
Context (env : Platform).

(** X6. The Accept header is checked first and the Content-Type header
    second, before the body is looked at: a request whose Accept header,
    in lower case, names neither [application/json] nor
    [text/event-stream] (a missing header is one) is refused with 406; one
    that passes but whose Content-Type does not contain
    [application/json] is refused with 415. Nothing changes in either case. *)
Theorem post_checks_headers_first (req : HttpRequest) (w : World) :
  let accept := toLowerCase (or_empty (header_accept req)) in
  let acceptable :=
    includes accept "application/json" || includes accept "text/event-stream" in
  (acceptable = false →
     post env req w =
     (Replied 406
        (Some "Clients must include application/json or text/event-stream in the Accept header."),
      w))
  ∧ (acceptable = true →
     includes (or_empty (header_content_type req)) "application/json" = false →
     post env req w = (Replied 415 (Some "Content-Type must be application/json"), w))
  ∧ (header_accept req = None → acceptable = false).
Proof.
  intros accept acceptable. subst acceptable accept. split; [|split].
  - intros Hacc. apply orb_false_iff in Hacc as [Hjson Hsse].
    unfold post, post_body, enforceAcceptHeader. by rewrite Hjson, Hsse.
  - intros Hacc Hcontent. unfold post, post_body.
    rewrite (run_lift_ok _ tt).
    + unfold enforceJsonContent. by rewrite Hcontent.
    + unfold enforceAcceptHeader.
      destruct (includes _ "application/json"); [done|].
      by destruct (includes _ "text/event-stream").
  - by intros ->.
Qed.

(** X7. With the headers accepted, a body that is not a batch is refused
    with 400 and nothing changes: a body that is missing, [null], a
    boolean or a number; a string that [JSON.parse] rejects; an empty
    array. *)
Theorem post_refuses_bad_framing (req : HttpRequest) (w : World) :
  enforceAcceptHeader req = Ok tt → enforceJsonContent req = Ok tt →
  ((∀ text, body req ≠ Some (JStr text)) →
   (∀ items, body req ≠ Some (JArr items)) →
   (∀ fields, body req ≠ Some (JObj fields)) →
     post env req w = (Replied 400 (Some "Invalid JSON-RPC payload"), w))
  ∧ (∀ text, body req = Some (JStr text) → JSON_parse env text = None →
     post env req w = (Replied 400 (Some "Invalid JSON body"), w))
  ∧ (body req = Some (JArr []) →
     post env req w = (Replied 400 (Some "Empty JSON-RPC payload"), w)).
Proof.
  intros Haccept Hcontent. unfold post, post_body.
  rewrite (run_lift_ok _ tt) by done. rewrite (run_lift_ok _ tt) by done.
  split; [|split].
  - intros Hstr Harr Hobj.
    destruct (body req) as [[| b | n | text | items | fields]|] eqn:Hbody;
      try done.
    + by destruct (Hstr text).
    + by destruct (Harr items).
    + by destruct (Hobj fields).
  - intros text Hbody Hparse. unfold normalizeMessages. by rewrite Hbody, Hparse.
  - by intros ->.
Qed.

(** X8. The body is read in three forms that come to the same: one JSON
    object is handled as the array holding it; and a body that arrives as
    a string is parsed first, so that when it parses to something that is
    not itself a string the answer and the effects are those of the parsed
    value. *)
Theorem post_body_forms (req : HttpRequest) (w : World) :
  (∀ fields,
     post env (with_body (Some (JObj fields)) req) w
     = post env (with_body (Some (JArr [JObj fields])) req) w)
  ∧ (∀ text v,
       JSON_parse env text = Some v → (∀ s, v ≠ JStr s) →
       post env (with_body (Some (JStr text)) req) w
       = post env (with_body (Some v) req) w).
Proof.
  split; [done|]. intros text v Hparse Hstr.
  unfold post, post_body. cbn [with_body body header_session_id].
  assert (normalizeMessages env (Some (JStr text)) = normalizeMessages env (Some v))
    as Hsame.
  { unfold normalizeMessages. rewrite Hparse.
    destruct v as [| b | n | s | items | fields]; try done. by destruct (Hstr s). }
  assert (∀ b, enforceAcceptHeader (with_body b req) = enforceAcceptHeader req)
    as Haccept by done.
  assert (∀ b, enforceJsonContent (with_body b req) = enforceJsonContent req)
    as Hcontent by done.
  by rewrite !Haccept, !Hcontent, Hsame.
Qed.

(** X9. A batch without requests and without notifications (responses,
    or values that are no message at all) is acknowledged with an empty
    202 whether or not a session identifier is sent, known or unknown, and
    changes nothing. *)
Theorem post_ignores_responses (req : HttpRequest) (w : World)
    (messages : list jsval) (parts : Partition) :
  enforceAcceptHeader req = Ok tt → enforceJsonContent req = Ok tt →
  normalizeMessages env (body req) = Ok messages → messages ≠ [] →
  partitionMessages messages = Ok parts →
  requests parts = [] → notifications parts = [] →
  post env req w = (Replied 202 None, w).
Proof.
  intros Haccept Hcontent Hbody Hne Hparts Hreq Hnot.
  rewrite (post_decoded env req w messages parts) by done.
  by rewrite Hreq, Hnot.
Qed.

End Decoding.

Lemma post_checks_headers_first_witness :
  post Sample.env
    {| header_accept := Some "TEXT/EVENT-STREAM";
       header_content_type := Some "text/plain";
       header_session_id := None;
       body := Some Sample.ping |} Sample.empty
  = (Replied 415 (Some "Content-Type must be application/json"), Sample.empty).
Proof.
  apply (post_checks_headers_first Sample.env
           {| header_accept := Some "TEXT/EVENT-STREAM";
              header_content_type := Some "text/plain";
              header_session_id := None;
              body := Some Sample.ping |} Sample.empty);
    reflexivity.
Defined.

Lemma post_refuses_bad_framing_witness :
  post Sample.env (Sample.request None (JNum 7)) Sample.live
  = (Replied 400 (Some "Invalid JSON-RPC payload"), Sample.live).
Proof.
  apply (post_refuses_bad_framing Sample.env (Sample.request None (JNum 7))
           Sample.live); try reflexivity; discriminate.
Defined.

Lemma post_body_forms_witness :
  post Sample.parsing
    (with_body (Some (JStr "[5]")) (Sample.request (Some "session-0") JNull))
    Sample.live
  = post Sample.parsing
      (with_body (Some (JArr [JNum 5])) (Sample.request (Some "session-0") JNull))
      Sample.live.
Proof.
  apply (post_body_forms Sample.parsing (Sample.request (Some "session-0") JNull)
           Sample.live); [reflexivity | discriminate].
Defined.

Lemma post_ignores_responses_witness :
  post Sample.env
    (Sample.request (Some "ghost")
       (JArr [Sample.obj [("jsonrpc", JStr "2.0"); ("id", JNum 9);
                          ("result", JObj ∅)]; JStr "noise"]))
    Sample.live
  = (Replied 202 None, Sample.live).
Proof.
  eapply (post_ignores_responses Sample.env); try reflexivity. discriminate.
Defined.

(** ** Requests over HTTP *)

Section Requests.
Context (env : Platform).

#[local] Abbreviation nonnull := (λ message : jsval, message ≠ JNull).

Lemma is_str_eq (v : option jsval) (name : string) :
  is_str v name = true ↔ v = Some (JStr name).
Proof.
  destruct v as [[| | | s | |]|]; cbn; try (split; discriminate).
  rewrite String.eqb_eq. split; [by intros -> | by intros [= ->]].
Qed.

Lemma is_initialize_inv (r : jsval) :
  is_initialize r = true →
  ∃ fields, r = JObj fields ∧ fields !! "method" = Some (JStr "initialize").
Proof.
  unfold is_initialize. rewrite is_str_eq.
  destruct r as [| | | | | fields]; try discriminate. intros Hmethod. by exists fields.
Qed.

Lemma processNotifications_ok (headerSessionId : option string) (l : list jsval)
    (w w1 : World) :
  Forall nonnull l →
  processNotifications env headerSessionId l w = (Ok tt, w1) →
  sessions w1 = sessions w ∧ draws w1 = draws w ∧ calls w1 = calls w
  ∧ (l = [] → w1 = w)
  ∧ (l ≠ [] → ∃ i r, headerSessionId = Some i ∧ i ≠ ""
                     ∧ sessions w !! i = Some r).
Proof.
  intros Hall. destruct l as [| n rest].
  - intros [= <-]. by repeat split.
  - destruct headerSessionId as [[| c i]|]; try done.
    destruct (sessions w !! String c i) as [r|] eqn:Hmap.
    + rewrite (processNotifications_live env (Some (String c i)) _ r) by done.
      destruct (notify_all_frame env r _ w Hall) as (w' & -> & Hs & Hd & Hc & _).
      intros [= <-]. repeat split; try done. intros _. by exists (String c i), r.
    + by rewrite (processNotifications_unknown env (Some (String c i))).
Qed.

(** How a POST that opens the stream got there. *)
Lemma streaming_inv (req : HttpRequest) (w w' : World) (messages : list jsval)
    (parts : Partition) (tasks : list task) :
  normalizeMessages env (body req) = Ok messages →
  partitionMessages messages = Ok parts →
  post env req w = (Streaming tasks, w') →
  ∃ w1 session,
    processNotifications env (or_undefined (header_session_id req))
      (notifications parts) w = (Ok tt, w1)
    ∧ requests parts ≠ []
    ∧ existsb is_initialize (requests parts)
      && (1 <? length (requests parts))%nat = false
    ∧ bind_session (existsb (λ r, negb (is_initialize r)) (requests parts))
        (or_undefined (header_session_id req)) w1 = (Ok session, w1)
    ∧ dispatch env (requests parts) session w1 = (Ok tasks, w').
Proof.
  intros Hbody Hparts. unfold post, post_body. rewrite !run_bind.
  unfold lift at 1. destruct (enforceAcceptHeader req) as [[]|]; [|by destruct e].
  rewrite !run_bind. unfold lift at 1.
  destruct (enforceJsonContent req) as [[]|]; [|by destruct e].
  rewrite (run_lift_ok _ messages) by done.
  destruct messages as [| m rest] eqn:Hm; [done|]. rewrite <- Hm in *.
  rewrite (run_lift_ok _ parts) by done.
  destruct (requests_facts _ _ Hparts) as (Hreqs & Hnots & _).
  rewrite run_bind.
  destruct (processNotifications_outcome env
              (or_undefined (header_session_id req)) (notifications parts) w Hnots)
    as (w1 & [Hrun | (status & message & _ & Hrun)]); rewrite Hrun; [|done].
  destruct (requests parts) as [| r rs] eqn:Hr; [done|]. rewrite <- Hr in *.
  assert (requests parts ≠ []) as Hne by by rewrite Hr.
  destruct (existsb is_initialize (requests parts)
            && (1 <? length (requests parts))%nat) eqn:Hmix.
  - apply andb_true_iff in Hmix as [Hinit Hlen]. apply Nat.ltb_lt in Hlen.
    by rewrite respond_mixed.
  - rewrite respond_unmixed by done. rewrite run_bind.
    destruct (bind_session_outcome
                (existsb (λ r, negb (is_initialize r)) (requests parts))
                (or_undefined (header_session_id req)) w1)
      as [[session Hbind] | (status & message & _ & Hbind)]; rewrite Hbind; [|done].
    rewrite run_bind.
    destruct (dispatch_tasks env (requests parts) session w1)
      as (tasks' & w'' & Hdispatch & Hmap).
    rewrite Hdispatch. cbn. intros [= <- <-]. by exists w1, session.
Qed.

(** A batch of one request sent with the identifier of a live session. *)
Lemma post_single_request (req : HttpRequest) (w : World) (messages : list jsval)
    (parts : Partition) (r : jsval) (i : string) (session : nat) :
  enforceAcceptHeader req = Ok tt → enforceJsonContent req = Ok tt →
  normalizeMessages env (body req) = Ok messages →
  partitionMessages messages = Ok parts →
  notifications parts = [] → requests parts = [r] →
  is_initialize r = false →
  or_undefined (header_session_id req) = Some i →
  sessions w !! i = Some session →
  post env req w =
  (Streaming [ {| task_request := r;
                  task_outcome := fst (handleRpcRequest env r (Some session) w) |} ],
   snd (handleRpcRequest env r (Some session) w)).
Proof.
  intros Haccept Hcontent Hbody Hparts Hnot Hreq Hother Hid Hmap.
  destruct (requests_facts _ _ Hparts) as (Hreqs & _ & Hne).
  rewrite (post_decoded env req w messages parts); try done.
  - rewrite Hnot, run_bind, processNotifications_none. rewrite Hreq in *.
    rewrite respond_unmixed; [|done|done|].
    + cbn [existsb]. rewrite Hother. cbn [negb orb]. rewrite Hid.
      unfold bind_session.
      rewrite run_bind.
      rewrite (run_lift_ok _ i) by by eapply requireSessionHeader_some.
      rewrite run_bind. unfold loadSession. rewrite Hmap.
      cbn [mret M_ret dispatch]. rewrite !run_bind. unfold attempt.
      by destruct (handleRpcRequest env r (Some session) w) as [outcome w'].
    + cbn [existsb]. by rewrite Hother.
  - apply Hne. left. by rewrite Hreq.
Qed.

(** *** The dispatcher, method by method *)

Lemma method_of_inv (r : jsval) (v : jsval) :
  method_of r = Some v → ∃ fields, r = JObj fields ∧ fields !! "method" = Some v.
Proof. destruct r as [| | | | | fields]; try discriminate. intros H. by exists fields. Qed.

Lemma ping_run (fields : gmap string jsval) (session : nat) (w : World) :
  fields !! "method" = Some (JStr "ping") →
  handleRpcRequest env (JObj fields) (Some session) w
  = (Ok (JObj ∅, None), touched env session w).
Proof.
  intros Hmethod. unfold handleRpcRequest.
  rewrite (run_lift_ok _ (fields !! "method")) by done.
  rewrite Hmethod. eval_is_str.
  rewrite (run_lift_ok _ session) by done.
  by rewrite run_bind, touchSession_run.
Qed.

Lemma list_run (fields : gmap string jsval) (session : nat) (w : World) :
  fields !! "method" = Some (JStr "tools/list") →
  handleRpcRequest env (JObj fields) (Some session) w
  = (Ok (JObj (<["tools" := listTools env]> ∅), None), touched env session w).
Proof.
  intros Hmethod. unfold handleRpcRequest.
  rewrite (run_lift_ok _ (fields !! "method")) by done.
  rewrite Hmethod. eval_is_str.
  rewrite (run_lift_ok _ session) by done.
  by rewrite run_bind, touchSession_run.
Qed.

Lemma call_run (fields : gmap string jsval) (session : nat) (w : World) :
  fields !! "method" = Some (JStr "tools/call") →
  handleRpcRequest env (JObj fields) (Some session) w
  = match js_get_opt (fields !! "params") "name" with
    | Some (JStr name) =>
        ((λ v, (v, None)) <$>
           callTool env (calls w) name
             (js_get_opt (fields !! "params") "arguments"),
         {| heap := heap (touched env session w);
            sessions := sessions w; ticks := S (ticks w); draws := draws w;
            calls := calls w ++ [(name, js_get_opt (fields !! "params") "arguments")] |})
    | _ =>
        (Throw (RpcError ErrorCode.InvalidParams "Tool name is required"),
         touched env session w)
    end.
Proof.
  intros Hmethod. unfold handleRpcRequest.
  rewrite (run_lift_ok _ (fields !! "method")) by done.
  rewrite Hmethod. eval_is_str.
  rewrite (run_lift_ok _ session) by done.
  rewrite run_bind, touchSession_run.
  rewrite (run_lift_ok _ (fields !! "params")) by done.
  destruct (js_get_opt (fields !! "params") "name") as [[| | | name | |]|];
    try done.
  rewrite run_bind. unfold invoke. cbn [calls touched heap sessions ticks draws].
  by destruct (callTool env (calls w) name _).
Qed.

Lemma unknown_run (fields : gmap string jsval) (session : option nat) (w : World)
    (m : string) :
  fields !! "method" = Some (JStr m) → m ∉ known_methods →
  handleRpcRequest env (JObj fields) session w
  = (Throw (RpcError ErrorCode.MethodNotFound ("Unsupported method: " +:+ m)), w).
Proof.
  intros Hmethod Hunknown. unfold handleRpcRequest.
  rewrite (run_lift_ok _ (fields !! "method")) by done.
  rewrite Hmethod. cbn [is_str].
  assert (∀ name, name ∈ known_methods → String.eqb m name = false) as Hne.
  { intros name Hin. apply String.eqb_neq. by intros ->. }
  rewrite !Hne; [done | | | |]; unfold known_methods; set_solver.
Qed.

Lemma singleton_stream (t : task) (st : Stream) :
  runs_to (openSseStream [t]) st → written st = [frame_of t].
Proof.
  intros Hrun. apply runs_to_frames in Hrun. cbn in Hrun.
  by apply Permutation_singleton_r in Hrun.
Qed.

(** *** One request at a time *)

(** X10. A request whose method is none of the four the dispatcher knows,
    sent with the identifier of a live session, opens the stream and is
    answered there by one error frame, MethodNotFound, that names the
    method; the session is neither removed nor touched: nothing changes. *)
Theorem post_unknown_method (req : HttpRequest) (w : World)
    (messages : list jsval) (parts : Partition) (r : jsval) (m i : string)
    (session : nat) :
  enforceAcceptHeader req = Ok tt → enforceJsonContent req = Ok tt →
  normalizeMessages env (body req) = Ok messages →
  partitionMessages messages = Ok parts →
  notifications parts = [] → requests parts = [r] →
  method_of r = Some (JStr m) → m ∉ known_methods →
  or_undefined (header_session_id req) = Some i →
  sessions w !! i = Some session →
  ∃ tasks,
    post env req w = (Streaming tasks, w)
    ∧ ∀ st, runs_to (openSseStream tasks) st →
        written st = [ErrorFrame (id_of r) ErrorCode.MethodNotFound
                        ("Unsupported method: " +:+ m)].
Proof.
  intros Haccept Hcontent Hbody Hparts Hnot Hreq Hmethod Hunknown Hid Hmap.
  destruct (method_of_inv _ _ Hmethod) as (fields & -> & Hfield).
  assert (is_initialize (JObj fields) = false) as Hother.
  { unfold is_initialize. rewrite Hmethod. cbn. apply String.eqb_neq.
    intros ->. apply Hunknown. unfold known_methods. set_solver. }
  rewrite (post_single_request req w messages parts (JObj fields) i session)
    by done.
  rewrite (unknown_run _ _ _ m) by done.
  eexists. split; [reflexivity|]. intros st Hrun.
  by rewrite (singleton_stream _ _ Hrun).
Qed.

(** X11. A [ping] or a [tools/list] sent with the identifier of a live
    session is answered by one result frame (the empty object, or the
    table of tools) and refreshes the last activity of the session with
    one reading of the clock; nothing else changes. *)
Theorem post_ping_touches (req : HttpRequest) (w : World)
    (messages : list jsval) (parts : Partition) (r : jsval) (i : string)
    (session : nat) :
  enforceAcceptHeader req = Ok tt → enforceJsonContent req = Ok tt →
  normalizeMessages env (body req) = Ok messages →
  partitionMessages messages = Ok parts →
  notifications parts = [] → requests parts = [r] →
  or_undefined (header_session_id req) = Some i →
  sessions w !! i = Some session →
  (method_of r = Some (JStr "ping") →
     ∃ tasks,
       post env req w = (Streaming tasks, touched env session w)
       ∧ ∀ st, runs_to (openSseStream tasks) st →
           written st = [ResultFrame (id_of r) (JObj ∅)])
  ∧ (method_of r = Some (JStr "tools/list") →
     ∃ tasks,
       post env req w = (Streaming tasks, touched env session w)
       ∧ ∀ st, runs_to (openSseStream tasks) st →
           written st
           = [ResultFrame (id_of r) (JObj (<["tools" := listTools env]> ∅))]).
Proof.
  intros Haccept Hcontent Hbody Hparts Hnot Hreq Hid Hmap. split.
  - intros Hmethod. destruct (method_of_inv _ _ Hmethod) as (fields & -> & Hfield).
    rewrite (post_single_request req w messages parts (JObj fields) i session);
      try done; [|unfold is_initialize; by rewrite Hmethod].
    rewrite ping_run by done.
    eexists. split; [reflexivity|]. intros st Hrun.
    by rewrite (singleton_stream _ _ Hrun).
  - intros Hmethod. destruct (method_of_inv _ _ Hmethod) as (fields & -> & Hfield).
    rewrite (post_single_request req w messages parts (JObj fields) i session);
      try done; [|unfold is_initialize; by rewrite Hmethod].
    rewrite list_run by done.
    eexists. split; [reflexivity|]. intros st Hrun.
    by rewrite (singleton_stream _ _ Hrun).
Qed.

(** X12. A [tools/call] sent with the identifier of a live session first
    refreshes the last activity of the session. If its parameters carry no
    string [name], no tool is called and the answer is one error frame,
    InvalidParams. Otherwise the tool service is called once, with that
    name and the [arguments] of the request as they are, and the answer is
    one frame: the result of the tool, or the error frame of what it threw. *)
Theorem post_tool_call (req : HttpRequest) (w : World)
    (messages : list jsval) (parts : Partition) (r : jsval) (i : string)
    (session : nat) :
  enforceAcceptHeader req = Ok tt → enforceJsonContent req = Ok tt →
  normalizeMessages env (body req) = Ok messages →
  partitionMessages messages = Ok parts →
  notifications parts = [] → requests parts = [r] →
  or_undefined (header_session_id req) = Some i →
  sessions w !! i = Some session →
  method_of r = Some (JStr "tools/call") →
  let params := js_get_opt (Some r) "params" in
  let args := js_get_opt params "arguments" in
  ∃ tasks w',
    post env req w = (Streaming tasks, w')
    ∧ heap w' = heap (touched env session w)
    ∧ sessions w' = sessions w
    ∧ (is_string (js_get_opt params "name") = false →
         calls w' = calls w
         ∧ ∀ st, runs_to (openSseStream tasks) st →
             written st = [ErrorFrame (id_of r) ErrorCode.InvalidParams
                             "Tool name is required"])
    ∧ (∀ name, js_get_opt params "name" = Some (JStr name) →
         calls w' = calls w ++ [(name, args)]
         ∧ ∀ st, runs_to (openSseStream tasks) st →
             written st =
             [match callTool env (calls w) name args with
              | Ok result => ResultFrame (id_of r) result
              | Throw error => createErrorResponse (id_of r) error
              end]).
Proof.
  intros Haccept Hcontent Hbody Hparts Hnot Hreq Hid Hmap Hmethod params args.
  destruct (method_of_inv _ _ Hmethod) as (fields & -> & Hfield).
  subst args params. cbn [js_get_opt].
  rewrite (post_single_request req w messages parts (JObj fields) i session);
    try done; [|unfold is_initialize; by rewrite Hmethod].
  rewrite call_run by done.
  destruct (js_get_opt (fields !! "params") "name") as [[| | | name | |]|] eqn:Hname;
    eexists _, _; (split; [reflexivity|]); (split; [done|]); (split; [done|]);
    split.
  all: try (intros Hstr; discriminate Hstr).
  all: try (intros name' Heq; discriminate Heq).
  all: try (intros _; split; [done|]; intros st Hrun;
            by rewrite (singleton_stream _ _ Hrun)).
  intros name' [= <-]. split; [done|]. intros st Hrun.
  rewrite (singleton_stream _ _ Hrun). unfold frame_of. cbn [task_outcome fst].
  by destruct (callTool env (calls w) name _).
Qed.

End Requests.

Lemma post_unknown_method_witness :
  ∃ tasks,
    post Sample.env
      (Sample.request (Some "session-0")
         (Sample.obj [("id", JNum 3); ("method", JStr "resources/list")]))
      Sample.live
    = (Streaming tasks, Sample.live).
Proof.
  destruct (post_unknown_method Sample.env
              (Sample.request (Some "session-0")
                 (Sample.obj [("id", JNum 3); ("method", JStr "resources/list")]))
              Sample.live
              [Sample.obj [("id", JNum 3); ("method", JStr "resources/list")]]
              {| requests :=
                   [Sample.obj [("id", JNum 3); ("method", JStr "resources/list")]];
                 notifications := []; responses := [] |}
              (Sample.obj [("id", JNum 3); ("method", JStr "resources/list")])
              "resources/list" "session-0" 0%nat)
    as (tasks & Hpost & _).
  1-7, 9-10: reflexivity.
  - unfold known_methods. rewrite !not_elem_of_cons.
    repeat split; try discriminate. apply not_elem_of_nil.
  - by exists tasks.
Defined.

Lemma post_ping_touches_witness :
  ∃ tasks,
    post Sample.env (Sample.request (Some "session-0") Sample.ping) Sample.live
    = (Streaming tasks, touched Sample.env 0%nat Sample.live).
Proof.
  destruct (post_ping_touches Sample.env
              (Sample.request (Some "session-0") Sample.ping) Sample.live
              [Sample.ping]
              {| requests := [Sample.ping]; notifications := []; responses := [] |}
              Sample.ping "session-0" 0%nat) as [Hping _].
  1-8: reflexivity.
  destruct Hping as (tasks & Hpost & _); [reflexivity|]. by exists tasks.
Defined.

Lemma post_tool_call_witness :
  ∃ tasks w',
    post Sample.env
      (Sample.request (Some "session-0") (Sample.call "a" "legal_think"))
      Sample.live
    = (Streaming tasks, w')
    ∧ calls w' = [("legal_think", None)].
Proof.
  destruct (post_tool_call Sample.env
              (Sample.request (Some "session-0") (Sample.call "a" "legal_think"))
              Sample.live [Sample.call "a" "legal_think"]
              {| requests := [Sample.call "a" "legal_think"];
                 notifications := []; responses := [] |}
              (Sample.call "a" "legal_think") "session-0" 0%nat)
    as (tasks & w' & Hpost & _ & _ & _ & Hcalled).
  1-9: reflexivity.
  destruct (Hcalled "legal_think") as [Hcalls _]; [reflexivity|].
  exists tasks, w'. split; [done|]. rewrite Hcalls. reflexivity.
Defined.

(** ** The handshake and the header of the stream *)

Section Handshake.
Context (env : Platform).

#[local] Abbreviation nonnull := (λ message : jsval, message ≠ JNull).

Lemma bind_session_free (headerSessionId : option string) (w : World) :
  ∃ session, bind_session false headerSessionId w = (Ok session, w).
Proof. destruct headerSessionId as [[| c i]|]; by eexists. Qed.

Lemma bind_session_live (requiresSession : bool) (i : string) (r : nat) (w : World) :
  i ≠ "" → sessions w !! i = Some r →
  ∃ session,
    bind_session requiresSession (Some i) w = (Ok session, w)
    ∧ (requiresSession = true → session = Some r).
Proof.
  intros Hne Hmap. destruct requiresSession.
  - exists (Some r). split; [|done]. unfold bind_session.
    rewrite (run_lift_ok _ i) by by destruct i.
    rewrite run_bind. unfold loadSession. by rewrite Hmap.
  - destruct (bind_session_free (Some i) w) as [session ->]. by exists session.
Qed.

Lemma bind_session_required (headerSessionId : option string) (w w' : World)
    (session : option nat) :
  bind_session true headerSessionId w = (Ok session, w') → is_Some session.
Proof.
  unfold bind_session. destruct headerSessionId as [[| c i]|]; try done.
  rewrite (run_lift_ok _ (String c i)) by done.
  rewrite run_bind. unfold loadSession.
  destruct (sessions w !! String c i) as [r|]; [|done]. by intros [= <- <-].
Qed.

Lemma dispatch_cons (r : jsval) (rest : list jsval) (session : option nat) (w : World) :
  dispatch env (r :: rest) session w =
  let (outcome, w1) := handleRpcRequest env r session w in
  match dispatch env rest session w1 with
  | (Ok tasks, w') =>
      (Ok ({| task_request := r; task_outcome := outcome |} :: tasks), w')
  | (Throw e, w') => (Throw e, w')
  end.
Proof.
  cbn [dispatch]. rewrite run_bind. unfold attempt.
  destruct (handleRpcRequest env r session w) as [outcome w1].
  rewrite run_bind. by destruct (dispatch env rest session w1) as [[tasks|e] w'].
Qed.

(** X13. A batch whose only request is an [initialize], without
    notifications, always opens the stream, whatever session identifier is
    or is not sent with it: one session is created under the identifier
    drawn from the generator, not yet initialized, created and last active
    at the one reading of the clock; the sessions that were there are not
    looked at; the identifier loads the new session from then on. *)
Theorem post_handshake (req : HttpRequest) (w : World)
    (messages : list jsval) (parts : Partition) (r : jsval) :
  enforceAcceptHeader req = Ok tt → enforceJsonContent req = Ok tt →
  normalizeMessages env (body req) = Ok messages →
  partitionMessages messages = Ok parts →
  notifications parts = [] → requests parts = [r] → is_initialize r = true →
  let i := uuidv4 env (draws w) in
  ∃ result w',
    post env req w
    = (Streaming [ {| task_request := r; task_outcome := Ok (result, Some i) |} ],
       w')
    ∧ heap w' = heap w ++ [new_session env w]
    ∧ sessions w' = <[i := length (heap w)]> (sessions w)
    ∧ loadSession i w' = (Ok (length (heap w)), w').
Proof.
  intros Haccept Hcontent Hbody Hparts Hnot Hreq Hinit i.
  destruct (requests_facts _ _ Hparts) as (Hreqs & _ & Hne).
  destruct (is_initialize_inv _ Hinit) as (fields & -> & Hmethod).
  rewrite (post_decoded env req w messages parts); try done;
    [|apply Hne; left; by rewrite Hreq].
  rewrite Hnot, run_bind, processNotifications_none. rewrite Hreq in *.
  rewrite respond_unmixed; [|done|done|cbn; by rewrite andb_false_r].
  cbn [existsb]. rewrite Hinit. cbn [negb orb]. rewrite run_bind.
  destruct (bind_session_free (or_undefined (header_session_id req)) w)
    as [session ->].
  rewrite run_bind, dispatch_cons, (initialize_run env _ _ _ Hmethod).
  rewrite createSession_run. cbn [snd dispatch mret M_ret finish].
  eexists _, _. split; [reflexivity|]. split; [done|]. split; [done|].
  unfold loadSession. cbn [sessions]. subst i. by rewrite lookup_insert_eq.
Qed.

(** *** The [Mcp-Session-Id] header of the response *)

Lemma announced_app (l1 l2 : list task) :
  announced (l1 ++ l2) = announced l1 ++ announced l2.
Proof. apply omap_app. Qed.

Lemma announced_cons (t : task) (l : list task) :
  announced (t :: l) =
  match task_outcome t with
  | Ok (_, Some i) => if truthy (Some i) then i :: announced l else announced l
  | _ => announced l
  end.
Proof.
  unfold announced. cbn -[truthy].
  destruct (task_outcome t) as [[result [i|]]|]; try done.
  by destruct (truthy (Some i)).
Qed.

Lemma header_sticky (st st' : Stream) :
  rtc step st st' → sessionIdResponseSet st = true →
  session_header st' = session_header st.
Proof.
  induction 1 as [st | st st1 st' Hstep _ IH]; [done|]. intros Hset.
  destruct Hstep as [st before t after Hpending].
  rewrite IH.
  - unfold settle. destruct (task_outcome t) as [[result newSessionId]|]; [|done].
    cbn. by rewrite Hset, andb_false_r.
  - unfold settle. destruct (task_outcome t) as [[result newSessionId]|]; [|done].
    cbn. by rewrite Hset, orb_true_r.
Qed.

Lemma header_of_run (st st' : Stream) :
  rtc step st st' → ended st' →
  sessionIdResponseSet st = false → session_header st = None →
  (announced (pending st) = [] → session_header st' = None)
  ∧ (announced (pending st) ≠ [] →
     ∃ i, i ∈ announced (pending st) ∧ session_header st' = Some i).
Proof.
  induction 1 as [st | st st1 st' Hstep Hsteps IH]; intros Hended Hflag Hnone.
  - split; [done|]. unfold ended in Hended. by rewrite Hended.
  - destruct Hstep as [st before t after Hpending].
    rewrite Hpending, announced_app, announced_cons.
    destruct (task_outcome t) as [[result [i|]]|] eqn:Houtcome.
    + destruct (truthy (Some i)) eqn:Htruthy.
      * split; [by destruct (announced before)|]. intros _. exists i. split.
        { apply elem_of_app. right. left. }
        rewrite (header_sticky _ _ Hsteps).
        { unfold settle. by rewrite Houtcome, Htruthy, Hflag. }
        unfold settle. by rewrite Houtcome, Htruthy, Hflag.
      * rewrite <- announced_app.
        assert (settle t (before ++ after) st
                = {| session_header := session_header st;
                     sessionIdResponseSet := sessionIdResponseSet st;
                     pending := before ++ after;
                     written := written st ++ [ResultFrame (id_of (task_request t)) result] |})
          as Hsettle.
        { unfold settle. rewrite Houtcome, Htruthy. cbn. by rewrite Hflag. }
        rewrite Hsettle in IH. by apply IH.
    + rewrite <- announced_app.
      assert (settle t (before ++ after) st
              = {| session_header := session_header st;
                   sessionIdResponseSet := sessionIdResponseSet st;
                   pending := before ++ after;
                   written := written st ++ [ResultFrame (id_of (task_request t)) result] |})
        as Hsettle.
      { unfold settle. rewrite Houtcome. cbn. by rewrite Hflag. }
      rewrite Hsettle in IH. by apply IH.
    + rewrite <- announced_app.
      assert (pending (settle t (before ++ after) st) = before ++ after
              ∧ sessionIdResponseSet (settle t (before ++ after) st) = false
              ∧ session_header (settle t (before ++ after) st) = None)
        as (Hp & Hf & Hh).
      { unfold settle. by rewrite Houtcome. }
      rewrite <- Hp. by apply IH.
Qed.

Lemma handle_silent (r : jsval) (session : option nat) (w : World)
    (result : jsval) (newSessionId : option string) :
  r ≠ JNull → is_initialize r = false →
  fst (handleRpcRequest env r session w) = Ok (result, newSessionId) →
  newSessionId = None.
Proof.
  intros Hnull Hother. unfold handleRpcRequest.
  rewrite (run_lift_ok _ (method_of r)) by by apply js_get_method.
  unfold is_initialize in Hother. rewrite Hother.
  destruct session as [s|].
  - destruct (is_str (method_of r) "ping"); [by intros [= _ <-]|].
    destruct (is_str (method_of r) "tools/list"); [by intros [= _ <-]|].
    destruct (is_str (method_of r) "tools/call"); [|done].
    rewrite (run_lift_ok _ s) by done. rewrite run_bind, touchSession_run.
    rewrite run_bind. unfold lift at 1.
    destruct (js_get r "params") as [params|]; [|done].
    destruct (js_get_opt params "name") as [[| | | name | |]|]; try done.
    rewrite run_bind. unfold invoke.
    destruct (callTool env _ name _); [|done]. by intros [= _ <-].
  - destruct (is_str (method_of r) "ping"); [done|].
    destruct (is_str (method_of r) "tools/list"); [done|].
    by destruct (is_str (method_of r) "tools/call").
Qed.

Lemma dispatch_silent (l : list jsval) (session : option nat) (w w' : World)
    (tasks : list task) :
  Forall nonnull l → existsb is_initialize l = false →
  dispatch env l session w = (Ok tasks, w') → announced tasks = [].
Proof.
  intros Hall. revert w w' tasks.
  induction Hall as [| r rest Hnull Hrest IH]; intros w w' tasks Hnone.
  - by intros [= <- _].
  - cbn [existsb] in Hnone. apply orb_false_iff in Hnone as [Hr Hnone].
    rewrite dispatch_cons.
    destruct (handleRpcRequest env r session w) as [outcome w1] eqn:Hrun.
    destruct (dispatch env rest session w1) as [[tasks'|e] w''] eqn:Hrest';
      [|done].
    intros [= <- _]. rewrite announced_cons. cbn [task_outcome].
    rewrite (IH w1 w'' tasks' Hnone Hrest').
    destruct outcome as [[result [i|]]|]; try done.
    pose proof (handle_silent r session w result (Some i) Hnull Hr) as Habs.
    rewrite Hrun in Habs. by specialize (Habs eq_refl).
Qed.

(** X14. When a POST opens the stream, the response carries the
    [Mcp-Session-Id] header exactly when the batch was a handshake: the
    header is then the identifier of the session just created (an empty
    identifier is not announced); for every other batch it is not set,
    whatever the order in which the tasks settle. *)
Theorem stream_session_header (req : HttpRequest) (w w' : World)
    (messages : list jsval) (parts : Partition) (tasks : list task) (st : Stream) :
  normalizeMessages env (body req) = Ok messages →
  partitionMessages messages = Ok parts →
  post env req w = (Streaming tasks, w') →
  runs_to (openSseStream tasks) st →
  session_header st =
  if existsb is_initialize (requests parts)
     && truthy (Some (uuidv4 env (draws w)))
  then Some (uuidv4 env (draws w)) else None.
Proof.
  intros Hbody Hparts Hpost [Hsteps Hended].
  destruct (streaming_inv env _ _ _ _ _ _ Hbody Hparts Hpost)
    as (w1 & session & Hnotify & Hne & Hmix & Hbind & Hdispatch).
  destruct (requests_facts _ _ Hparts) as (Hreqs & Hnots & _).
  destruct (processNotifications_ok env _ _ _ _ Hnots Hnotify) as (_ & Hdraws & _).
  destruct (header_of_run _ _ Hsteps Hended eq_refl eq_refl) as [Hsilent Hloud].
  cbn [pending openSseStream] in Hsilent, Hloud.
  destruct (existsb is_initialize (requests parts)) eqn:Hinit.
  - destruct (requests parts) as [| r [| r' rest]] eqn:Hreq; [done| |].
    + cbn [existsb] in Hinit. rewrite orb_false_r in Hinit.
      destruct (is_initialize_inv _ Hinit) as (fields & -> & Hmethod).
      rewrite dispatch_cons, (initialize_run env _ _ _ Hmethod) in Hdispatch.
      cbn in Hdispatch. injection Hdispatch as <- _.
      rewrite announced_cons in Hsilent, Hloud.
      cbn [task_outcome] in Hsilent, Hloud.
      change (announced []) with (@nil string) in Hsilent, Hloud.
      rewrite Hdraws in Hsilent, Hloud. cbn [andb].
      destruct (truthy (Some (uuidv4 env (draws w)))).
      * destruct Hloud as (i & Hin & Heq); [done|].
        apply list_elem_of_singleton in Hin. by rewrite Heq, Hin.
      * by apply Hsilent.
    + cbn [andb length] in Hmix. done.
  - cbn [andb]. apply Hsilent.
    exact (dispatch_silent _ _ _ _ _ Hreqs Hinit Hdispatch).
Qed.

End Handshake.

Lemma post_handshake_witness :
  ∃ result w',
    post Sample.env (Sample.request (Some "ghost") Sample.initialize) Sample.live
    = (Streaming [ {| task_request := Sample.initialize;
                      task_outcome := Ok (result, Some "session-1") |} ], w')
    ∧ loadSession "session-1" w' = (Ok 1%nat, w').
Proof.
  destruct (post_handshake Sample.env
              (Sample.request (Some "ghost") Sample.initialize) Sample.live
              [Sample.initialize]
              {| requests := [Sample.initialize]; notifications := [];
                 responses := [] |} Sample.initialize)
    as (result & w' & Hpost & _ & _ & Hload).
  1-7: reflexivity.
  by exists result, w'.
Defined.

Lemma sample_handshake :
  post Sample.env (Sample.request None Sample.initialize) Sample.empty
  = (Streaming Sample.handshake,
     snd (post Sample.env (Sample.request None Sample.initialize) Sample.empty)).
Proof. vm_compute. reflexivity. Qed.

Lemma stream_session_header_witness :
  ∃ st, runs_to (openSseStream Sample.handshake) st
        ∧ session_header st = Some "session-0".
Proof.
  exists (drain Sample.handshake (openSseStream Sample.handshake)).
  split; [by apply drain_runs|].
  apply (stream_session_header Sample.env
           (Sample.request None Sample.initialize) Sample.empty _
           [Sample.initialize]
           {| requests := [Sample.initialize]; notifications := [];
              responses := [] |} Sample.handshake _ eq_refl eq_refl sample_handshake).
  by apply drain_runs.
Defined.

(** ** What a call can and cannot do *)

Section Outcomes.
Context (env : Platform).

#[local] Abbreviation nonnull := (λ message : jsval, message ≠ JNull).

Lemma dispatch_bound (l : list jsval) (s : nat) (w w' : World) (tasks : list task) :
  dispatch env l (Some s) w = (Ok tasks, w') →
  ∀ t, t ∈ tasks →
    (method_of (task_request t) = Some (JStr "ping") →
       task_outcome t = Ok (JObj ∅, None))
    ∧ (method_of (task_request t) = Some (JStr "tools/list") →
       task_outcome t = Ok (JObj (<["tools" := listTools env]> ∅), None)).
Proof.
  revert w w' tasks. induction l as [| r rest IH]; intros w w' tasks.
  - intros [= <- _] t Hin. by apply elem_of_nil in Hin.
  - rewrite dispatch_cons.
    destruct (handleRpcRequest env r (Some s) w) as [outcome w1] eqn:Hrun.
    destruct (dispatch env rest (Some s) w1) as [[tasks'|e] w''] eqn:Hrest;
      [|done].
    intros [= <- _] t Hin. apply elem_of_cons in Hin as [-> | Hin].
    + cbn [task_request task_outcome]. split; intros Hmethod;
        destruct (method_of_inv _ _ Hmethod) as (fields & -> & Hfield).
      * rewrite (ping_run env) in Hrun by done. by injection Hrun as <- _.
      * rewrite (list_run env) in Hrun by done. by injection Hrun as <- _.
    + by apply (IH w1 w'' tasks').
Qed.

(** X15. In a stream opened by a POST, a [ping] and a [tools/list] cannot
    fail: the task of every [ping] settles with the empty object and the
    task of every [tools/list] with the table of tools. The error "Request
    requires an active session" of these methods is never reached over
    HTTP, because the session of the batch is loaded before any task. *)
Theorem post_bound_methods_succeed (req : HttpRequest) (w w' : World)
    (messages : list jsval) (parts : Partition) (tasks : list task) :
  normalizeMessages env (body req) = Ok messages →
  partitionMessages messages = Ok parts →
  post env req w = (Streaming tasks, w') →
  ∀ t, t ∈ tasks →
    (method_of (task_request t) = Some (JStr "ping") →
       task_outcome t = Ok (JObj ∅, None))
    ∧ (method_of (task_request t) = Some (JStr "tools/list") →
       task_outcome t = Ok (JObj (<["tools" := listTools env]> ∅), None)).
Proof.
  intros Hbody Hparts Hpost t Hin.
  destruct (streaming_inv env _ _ _ _ _ _ Hbody Hparts Hpost)
    as (w1 & session & _ & _ & _ & Hbind & Hdispatch).
  destruct (dispatch_tasks env (requests parts) session w1)
    as (tasks' & w'' & Hdispatch' & Hmap).
  assert (tasks' = tasks) as -> by congruence.
  assert (task_request t ∈ requests parts) as Hreq.
  { rewrite <- Hmap. by apply list_elem_of_fmap_2. }
  assert (∀ name, name ≠ "initialize" →
            method_of (task_request t) = Some (JStr name) → is_Some session)
    as Hbound.
  { intros name Hname Hmethod.
    assert (existsb (λ r, negb (is_initialize r)) (requests parts) = true) as Hex.
    { apply existsb_elem_of. exists (task_request t). split; [done|].
      unfold is_initialize. rewrite Hmethod. cbn.
      apply negb_true_iff, String.eqb_neq. done. }
    rewrite Hex in Hbind. by eapply bind_session_required. }
  split; intros Hmethod.
  - destruct (Hbound "ping") as [s ->]; [done | done |].
    by apply (dispatch_bound _ _ _ _ _ Hdispatch t Hin).
  - destruct (Hbound "tools/list") as [s ->]; [done | done |].
    by apply (dispatch_bound _ _ _ _ _ Hdispatch t Hin).
Qed.

(** *** Plain replies *)

Lemma null_or_not (l : list jsval) : JNull ∈ l ∨ Forall nonnull l.
Proof.
  induction l as [| m rest [Hin | Hall]].
  - right. constructor.
  - left. by right.
  - destruct m; try (right; by constructor). left. left.
Qed.

Lemma normalizeMessages_throws (b : option jsval) (e : exn) :
  normalizeMessages env b = Throw e → ∃ message, e = HttpError 400 message.
Proof.
  unfold normalizeMessages.
  destruct b as [[| ? | ? | text | items | fields]|]; cbn;
    try (intros [= <-]; by eexists); try done.
  destruct (JSON_parse env text) as [[| ? | ? | ? | ? | ?]|]; cbn;
    try (intros [= <-]; by eexists); done.
Qed.

Lemma processNotifications_throws (headerSessionId : option string)
    (l : list jsval) (w w' : World) (e : exn) :
  Forall nonnull l →
  processNotifications env headerSessionId l w = (Throw e, w') →
  w' = w
  ∧ (e = HttpError 400 "Missing Mcp-Session-Id header"
     ∨ e = HttpError 404 "Session not found").
Proof.
  intros Hall. destruct l as [| n rest]; [done|].
  destruct headerSessionId as [[| c i]|].
  - intros [= <- <-]. auto.
  - destruct (sessions w !! String c i) as [r|] eqn:Hmap.
    + rewrite (processNotifications_live env (Some (String c i)) _ r) by done.
      by destruct (notify_all_frame env r _ w Hall) as (w1 & -> & _).
    + rewrite (processNotifications_unknown env (Some (String c i))) by done.
      intros [= <- <-]. auto.
  - intros [= <- <-]. auto.
Qed.

(** X16. A POST that ends with a plain reply answers 202, 400, 404, 406,
    415 or 500. Every reply other than the 202 leaves the world exactly as
    it was, with one exception: the 400 that refuses an [initialize]
    request sent with other requests, which comes after the notifications
    of the batch have been applied. *)
Theorem post_refusals_change_nothing (req : HttpRequest) (w w' : World)
    (status : Z) (error : option string) :
  post env req w = (Replied status error, w') →
  status ∈ [202; 400; 404; 406; 415; 500]
  ∧ (status ≠ 202 →
     error ≠ Some "Initialize request must be sent separately." →
     w' = w).
Proof.
  unfold post, post_body. rewrite run_bind. unfold lift at 1.
  unfold enforceAcceptHeader at 1.
  destruct (negb _ && negb _).
  { intros [= <- <- <-]. split; [set_solver | done]. }
  rewrite run_bind. unfold lift at 1. unfold enforceJsonContent at 1.
  destruct (negb _).
  { intros [= <- <- <-]. split; [set_solver | done]. }
  rewrite run_bind. unfold lift at 1.
  destruct (normalizeMessages env (body req)) as [messages | e] eqn:Hbody.
  2: { destruct (normalizeMessages_throws _ _ Hbody) as [message ->].
       intros [= <- <- <-]. split; [set_solver | done]. }
  destruct messages as [| m rest] eqn:Hm.
  { intros [= <- <- <-]. split; [set_solver | done]. }
  rewrite <- Hm in *. clear Hm. rewrite run_bind. unfold lift at 1.
  destruct (null_or_not messages) as [Hnull | Hall].
  { unfold partitionMessages. rewrite partition_loop_null by done.
    intros [= <- <- <-]. split; [set_solver | done]. }
  rewrite (partition_filters _ Hall).
  set (parts := {| requests := of_kind Request messages |}).
  assert (partitionMessages messages = Ok parts) as Hparts
    by by apply partition_filters.
  destruct (requests_facts _ _ Hparts) as (Hreqs & Hnots & _).
  rewrite run_bind.
  destruct (processNotifications env (or_undefined (header_session_id req))
              (notifications parts) w) as [[[] | e] w1] eqn:Hrun.
  2: { destruct (processNotifications_throws _ _ _ _ _ Hnots Hrun)
         as [-> [-> | ->]];
         intros [= <- <- <-]; (split; [set_solver | done]). }
  destruct (processNotifications_ok env _ _ _ _ Hnots Hrun)
    as (Hs & _ & _ & Hsame & Hlive).
  destruct (requests parts) as [| r rs] eqn:Hr.
  { intros [= <- <- <-]. split; [set_solver | done]. }
  rewrite <- Hr in *. assert (requests parts ≠ []) as Hne by by rewrite Hr.
  clear Hr.
  destruct (existsb is_initialize (requests parts)
            && (1 <? length (requests parts))%nat) eqn:Hmix.
  { apply andb_true_iff in Hmix as [Hinit Hlen]. apply Nat.ltb_lt in Hlen.
    rewrite respond_mixed by done.
    intros [= <- <- <-]. split; [set_solver | done]. }
  rewrite respond_unmixed by done. rewrite run_bind.
  destruct (bind_session_outcome
              (existsb (λ r, negb (is_initialize r)) (requests parts))
              (or_undefined (header_session_id req)) w1)
    as [[session Hbind] | (st & message & Hst & Hbind)]; rewrite Hbind.
  { rewrite run_bind.
    destruct (dispatch_tasks env (requests parts) session w1)
      as (tasks & w'' & -> & _). done. }
  intros [= <- <- <-]. split; [destruct Hst as [-> | ->]; set_solver |].
  intros _ _. destruct (notifications parts) as [| n ns] eqn:Hn; [by apply Hsame|].
  destruct Hlive as (i & ref & Hid & Hi & Hmap); [done|].
  rewrite <- Hs in Hmap.
  destruct (bind_session_live
              (existsb (λ r, negb (is_initialize r)) (requests parts)) i ref w1 Hi Hmap)
    as (session & Hok & _).
  rewrite Hid in Hbind. congruence.
Qed.

(** X17. A batch of notifications only, sent with the identifier of a
    live session, changes the initialized flag of the session only through
    an [initialized] notification, and never back to false; when none of
    its notifications is [initialized], [notifications/cancelled] or
    [notifications/progress] it is acknowledged and changes nothing. *)
Theorem post_notifications_effects (req : HttpRequest) (w : World)
    (messages : list jsval) (parts : Partition) (i : string) (session : nat)
    (s : Session) :
  enforceAcceptHeader req = Ok tt → enforceJsonContent req = Ok tt →
  normalizeMessages env (body req) = Ok messages →
  partitionMessages messages = Ok parts →
  requests parts = [] → notifications parts ≠ [] →
  or_undefined (header_session_id req) = Some i →
  sessions w !! i = Some session → heap w !! session = Some s →
  ∃ w' s',
    post env req w = (Replied 202 None, w')
    ∧ heap w' !! session = Some s'
    ∧ initialized s'
      = initialized s || existsb marks_initialized (notifications parts)
    ∧ (existsb touches (notifications parts) = false → w' = w).
Proof.
  intros Haccept Hcontent Hbody Hparts Hreq Hnot Hid Hmap Hobj.
  destruct (requests_facts _ _ Hparts) as (_ & Hnots & Hne).
  rewrite (post_decoded env req w messages parts) by auto.
  rewrite Hid, Hreq, run_bind.
  rewrite (processNotifications_live env (header_session_id req) _ session)
    by done.
  destruct (notify_all_session env session _ w s Hnots Hobj)
    as (w' & s' & Hrun & Hobj' & _ & Hinit & _).
  destruct (notify_all_frame env session _ w Hnots) as (w'' & Hrun' & _ & _ & _ & Hsame).
  assert (w'' = w') as -> by congruence.
  rewrite Hrun. by exists w', s'.
Qed.

(** X18. Once a session has been deleted, a POST that needs it is refused
    with 404 and changes nothing: a batch with notifications, or a batch
    of requests none of which is an [initialize]. *)
Theorem post_after_delete (req : HttpRequest) (w : World)
    (messages : list jsval) (parts : Partition) (i : string) (r : nat) :
  enforceAcceptHeader req = Ok tt → enforceJsonContent req = Ok tt →
  normalizeMessages env (body req) = Ok messages →
  partitionMessages messages = Ok parts →
  notifications parts ≠ []
  ∨ (requests parts ≠ [] ∧ existsb is_initialize (requests parts) = false) →
  header_session_id req = Some i → i ≠ "" →
  sessions w !! i = Some r →
  ∃ w1,
    mcp_delete (header_session_id req) w = (Replied 204 None, w1)
    ∧ post env req w1 = (Replied 404 (Some "Session not found"), w1).
Proof.
  intros Haccept Hcontent Hbody Hparts Hneeds Hid Hi Hmap.
  destruct (requests_facts _ _ Hparts) as (Hreqs & Hnots & Hne).
  assert (or_undefined (header_session_id req) = Some i) as Hsome.
  { rewrite Hid. by destruct i. }
  eexists. split.
  { unfold mcp_delete. rewrite Hid, Hmap. by destruct i. }
  set (w1 := set_sessions (delete i (sessions w)) w).
  assert (sessions w1 !! i = None) as Hgone by apply lookup_delete_eq.
  rewrite (post_decoded env req w1 messages parts); try done.
  - rewrite run_bind.
    destruct (notifications parts) as [| n ns] eqn:Hn.
    + destruct Hneeds as [Hnot | [Hreq Hnone]]; [done|].
      rewrite processNotifications_none.
      rewrite respond_requires_session; try done.
      * by rewrite Hnone, Hsome.
      * destruct (requests parts) as [| q qs]; [done|].
        cbn [existsb] in *. apply orb_false_iff in Hnone as [-> _]. done.
      * by rewrite Hsome.
    + rewrite Hsome.
      by rewrite (processNotifications_unknown env (header_session_id req)).
  - apply Hne. destruct Hneeds as [Hnot | [Hreq _]]; [by right | by left].
Qed.

End Outcomes.

Lemma post_bound_methods_succeed_witness :
  task_outcome {| task_request := Sample.ping; task_outcome := Ok (JObj ∅, None) |}
  = Ok (JObj ∅, None).
Proof.
  apply (post_bound_methods_succeed Sample.env
           (Sample.request (Some "session-0") Sample.batch) Sample.live _
           _ _ Sample.tasks eq_refl eq_refl sample_stream
           {| task_request := Sample.ping; task_outcome := Ok (JObj ∅, None) |}).
  - right. left.
  - reflexivity.
Defined.

Lemma post_refusals_change_nothing_witness :
  (404 : Z) ∈ [202; 400; 404; 406; 415; 500]
  ∧ (404 ≠ 202 →
     Some "Session not found" ≠ Some "Initialize request must be sent separately." →
     Sample.empty = Sample.empty).
Proof.
  apply (post_refusals_change_nothing Sample.env
           (Sample.request (Some "ghost") Sample.ping) Sample.empty Sample.empty
           404 (Some "Session not found")).
  vm_compute. reflexivity.
Defined.

Lemma post_notifications_effects_witness :
  ∃ w',
    post Sample.env
      (Sample.request (Some "session-0")
         (Sample.obj [("jsonrpc", JStr "2.0");
                      ("method", JStr "notifications/roots/list_changed")]))
      Sample.live
    = (Replied 202 None, w')
    ∧ w' = Sample.live.
Proof.
  destruct (post_notifications_effects Sample.env
              (Sample.request (Some "session-0")
                 (Sample.obj [("jsonrpc", JStr "2.0");
                              ("method", JStr "notifications/roots/list_changed")]))
              Sample.live
              [Sample.obj [("jsonrpc", JStr "2.0");
                           ("method", JStr "notifications/roots/list_changed")]]
              {| requests := [];
                 notifications :=
                   [Sample.obj [("jsonrpc", JStr "2.0");
                                ("method", JStr "notifications/roots/list_changed")]];
                 responses := [] |}
              "session-0" 0%nat
              {| id := "session-0"; createdAt := 1000; lastActivity := 1000;
                 initialized := false |})
    as (w' & s' & Hpost & _ & _ & Hsame).
  1-5, 7-9: reflexivity.
  - discriminate.
  - exists w'. split; [done|]. by apply Hsame.
Defined.

Lemma post_after_delete_witness :
  ∃ w1,
    mcp_delete (Some "session-0") Sample.live = (Replied 204 None, w1)
    ∧ post Sample.env (Sample.request (Some "session-0") Sample.ping) w1
      = (Replied 404 (Some "Session not found"), w1).
Proof.
  apply (post_after_delete Sample.env
           (Sample.request (Some "session-0") Sample.ping) Sample.live
           [Sample.ping]
           {| requests := [Sample.ping]; notifications := []; responses := [] |}
           "session-0" 0%nat); try reflexivity.
  - right. split; [discriminate | reflexivity].
  - discriminate.
Defined.

(** ** The tool service *)

Section Tools.
Context (tp : ToolPlatform) (env : Platform).

Lemma isError_createTextResponse (payload : jsval) (flag : bool) :
  LegalToolsService.isError (LegalToolsService.createTextResponse tp payload flag) = flag.
Proof.
  unfold LegalToolsService.isError, LegalToolsService.createTextResponse. cbn [js_get_opt].
  rewrite lookup_insert_ne by done. destruct flag; [|done].
  by rewrite lookup_insert_eq.
Qed.

Lemma text_of_createTextResponse (payload : jsval) (flag : bool) :
  LegalToolsService.text_of (LegalToolsService.createTextResponse tp payload flag)
  = Some (JStr match payload with
               | JStr s => s
               | _ => JSON_stringify tp payload
               end).
Proof.
  unfold LegalToolsService.text_of, LegalToolsService.createTextResponse. cbn [js_get_opt].
  rewrite lookup_insert_eq. cbn [js_get_opt].
  rewrite lookup_insert_ne by done. by rewrite lookup_insert_eq.
Qed.

(** X19. The two tools that echo their input answer without the error
    flag exactly when their required field ([question], [result]) is a
    non-empty string and the domain detector returns; in every other case
    (no arguments, a field that is missing, empty or not a string, a
    detector that throws) the answer carries [isError: true]. *)
Theorem echo_tools_validate (input : option jsval) :
  (LegalToolsService.isError (LegalToolsService.processLegalAskFollowupQuestion tp input) = false ↔
   ∃ question domain,
     js_get_opt input "question" = Some (JStr question) ∧ question ≠ ""
     ∧ detectDomain tp question = Ok domain)
  ∧ (LegalToolsService.isError (LegalToolsService.processLegalAttemptCompletion tp input) = false ↔
     ∃ result domain,
       js_get_opt input "result" = Some (JStr result) ∧ result ≠ ""
       ∧ detectDomain tp result = Ok domain).
Proof.
  split.
  - unfold LegalToolsService.processLegalAskFollowupQuestion, LegalToolsService.handleToolError.
    destruct input as [[| b | n | s | items | fields]|];
      rewrite ?isError_createTextResponse; cbn [js_get_opt];
      try (split; [done | by intros (? & ? & ? & _)]).
    destruct (fields !! "question") as [[| ? | ? | question | ? | ?]|];
      rewrite ?isError_createTextResponse;
      try (split; [done | by intros (? & ? & ? & _)]).
    destruct (String.eqb question "") eqn:Hempty.
    + rewrite isError_createTextResponse. apply String.eqb_eq in Hempty.
      split; [done|]. by intros (? & ? & [= <-] & ? & _).
    + apply String.eqb_neq in Hempty.
      destruct (detectDomain tp question) as [domain|error] eqn:Hdomain;
        rewrite isError_createTextResponse.
      * split; [|done]. intros _. by exists question, domain.
      * split; [done|]. intros (? & ? & [= <-] & _ & Hok). congruence.
  - unfold LegalToolsService.processLegalAttemptCompletion, LegalToolsService.handleToolError.
    destruct input as [[| b | n | s | items | fields]|];
      rewrite ?isError_createTextResponse; cbn [js_get_opt];
      try (split; [done | by intros (? & ? & ? & _)]).
    destruct (fields !! "result") as [[| ? | ? | result | ? | ?]|];
      rewrite ?isError_createTextResponse;
      try (split; [done | by intros (? & ? & ? & _)]).
    destruct (String.eqb result "") eqn:Hempty.
    + rewrite isError_createTextResponse. apply String.eqb_eq in Hempty.
      split; [done|]. by intros (? & ? & [= <-] & ? & _).
    + apply String.eqb_neq in Hempty.
      destruct (detectDomain tp result) as [domain|error] eqn:Hdomain;
        rewrite isError_createTextResponse.
      * split; [|done]. intros _. by exists result, domain.
      * split; [done|]. intros (? & ? & [= <-] & _ & Hok). congruence.
Qed.

(** X20. Over HTTP, with this tool service behind the dispatcher, a
    [tools/call] for a name that is none of the four tools is answered by
    a result frame, not by a JSON-RPC error frame: the result carries
    [isError: true] and its text is the printed object
    [{error: "Unknown tool: <name>"}]. The call does not reach any tool. *)
Theorem post_unknown_tool (req : HttpRequest) (w : World)
    (messages : list jsval) (parts : Partition) (r : jsval) (i name : string)
    (session : nat) :
  enforceAcceptHeader req = Ok tt → enforceJsonContent req = Ok tt →
  normalizeMessages (with_service tp env) (body req) = Ok messages →
  partitionMessages messages = Ok parts →
  notifications parts = [] → requests parts = [r] →
  or_undefined (header_session_id req) = Some i →
  sessions w !! i = Some session →
  method_of r = Some (JStr "tools/call") →
  js_get_opt (js_get_opt (Some r) "params") "name" = Some (JStr name) →
  name ∉ LegalToolsService.tool_names →
  ∃ tasks w' result,
    post (with_service tp env) req w = (Streaming tasks, w')
    ∧ (∀ st, runs_to (openSseStream tasks) st →
         written st = [ResultFrame (id_of r) result])
    ∧ LegalToolsService.isError result = true
    ∧ LegalToolsService.text_of result
      = Some (JStr (JSON_stringify tp
                      (JObj (<["error" := JStr ("Unknown tool: " +:+ name)]> ∅)))).
Proof.
  intros Haccept Hcontent Hbody Hparts Hnot Hreq Hid Hmap Hmethod Hname Hunknown.
  destruct (method_of_inv _ _ Hmethod) as (fields & -> & Hfield).
  cbn [js_get_opt] in Hname.
  rewrite (post_single_request (with_service tp env) req w messages parts
             (JObj fields) i session);
    try done; [|unfold is_initialize; by rewrite Hmethod].
  rewrite call_run by done. rewrite Hname.
  assert (∀ known, known ∈ LegalToolsService.tool_names → String.eqb name known = false) as Hne.
  { intros known Hin. apply String.eqb_neq. by intros ->. }
  assert (LegalToolsService.callTool tp name (js_get_opt (fields !! "params") "arguments")
          = Ok (LegalToolsService.createTextResponse tp
                  (JObj (<["error" := JStr ("Unknown tool: " +:+ name)]> ∅)) true))
    as Hcall.
  { unfold LegalToolsService.callTool. rewrite !Hne; [done | | | |]; unfold LegalToolsService.tool_names; set_solver. }
  cbn [with_service callTool]. rewrite Hcall.
  eexists _, _, _. split; [reflexivity|]. split; [|split].
  - intros st Hrun. by rewrite (singleton_stream _ _ Hrun).
  - apply isError_createTextResponse.
  - by rewrite text_of_createTextResponse.
Qed.

End Tools.

Lemma post_unknown_tool_witness :
  ∃ tasks w' result,
    post (with_service sample_tools Sample.env)
      (Sample.request (Some "session-0") (Sample.call "a" "legal_advice"))
      Sample.live
    = (Streaming tasks, w')
    ∧ LegalToolsService.isError result = true.
Proof.
  destruct (post_unknown_tool sample_tools Sample.env
              (Sample.request (Some "session-0") (Sample.call "a" "legal_advice"))
              Sample.live [Sample.call "a" "legal_advice"]
              {| requests := [Sample.call "a" "legal_advice"];
                 notifications := []; responses := [] |}
              (Sample.call "a" "legal_advice") "session-0" "legal_advice" 0%nat)
    as (tasks & w' & result & Hpost & _ & Herror & _).
  1-10: reflexivity.
  - unfold LegalToolsService.tool_names. rewrite !not_elem_of_cons.
    repeat split; try discriminate. apply not_elem_of_nil.
  - by exists tasks, w', result.
Defined.

(** ** Notifications and the session header *)

Section Notifications.
Context (env : Platform).

(** X21. Notifications are processed before anything is decided about
    the requests, and they need a session: a batch with at least one
    notification is refused with 400 when no session identifier is sent
    and with 404 when the identifier resolves to no session, whatever
    requests it also holds (a lone [initialize] included), and nothing
    changes. *)
Theorem post_notifications_need_session (req : HttpRequest) (w : World)
    (messages : list jsval) (parts : Partition) :
  enforceAcceptHeader req = Ok tt → enforceJsonContent req = Ok tt →
  normalizeMessages env (body req) = Ok messages →
  partitionMessages messages = Ok parts →
  notifications parts ≠ [] →
  (or_undefined (header_session_id req) = None →
     post env req w = (Replied 400 (Some "Missing Mcp-Session-Id header"), w))
  ∧ (∀ i, or_undefined (header_session_id req) = Some i →
          sessions w !! i = None →
          post env req w = (Replied 404 (Some "Session not found"), w)).
Proof.
  intros Haccept Hcontent Hbody Hparts Hnot.
  destruct (requests_facts _ _ Hparts) as (_ & _ & Hne).
  rewrite (post_decoded env req w messages parts) by auto.
  split.
  - intros ->. by rewrite run_bind, processNotifications_no_header.
  - intros i Hid Hmap. rewrite Hid, run_bind.
    by rewrite (processNotifications_unknown env (header_session_id req)).
Qed.

End Notifications.

Lemma post_notifications_need_session_witness :
  post Sample.env
    (Sample.request None (JArr [Sample.initialized_note; Sample.initialize]))
    Sample.live
  = (Replied 400 (Some "Missing Mcp-Session-Id header"), Sample.live).
Proof.
  apply (post_notifications_need_session Sample.env
           (Sample.request None (JArr [Sample.initialized_note; Sample.initialize]))
           Sample.live [Sample.initialized_note; Sample.initialize]
           {| requests := [Sample.initialize];
              notifications := [Sample.initialized_note]; responses := [] |});
    try reflexivity.
  discriminate.
Defined.

(** * The batch on the wire *)

(** ** What the client reads of a batch *)

Section Wire.
Context (env : Platform).

#[local] Abbreviation nonnull := (λ message : jsval, message ≠ JNull).




(** The event of a task, whatever its dispatch did. *)
Lemma event_of_task (t : task) :
  sendSseMessage (frame_of t) =
  match task_outcome t with
  | Ok (result, _) =>
      ResultFrame (printed <$> id_of (task_request t)) (printed result)
  | Throw (RpcError code message) =>
      ErrorFrame (printed <$> id_of (task_request t)) code message
  | Throw _ =>
      ErrorFrame (printed <$> id_of (task_request t)) ErrorCode.InternalError
        "Internal server error"
  end.
Proof.
  unfold frame_of.
  by destruct (task_outcome t) as [[result newSessionId]|[status m|code m|m]].
Qed.

(** Once every task has settled, the events are those of the tasks, in the
    order in which they settled. *)
Lemma runs_to_events (tasks : list task) (st : Stream) :
  runs_to (openSseStream tasks) st →
  events st ≡ₚ map sendSseMessage (map frame_of tasks).
Proof.
  intros Hrun. unfold events. apply Permutation_map. by apply runs_to_frames.
Qed.


(** Every request of the list is dispatched, in the world the requests
    before it have left. *)
Lemma dispatch_world (l : list jsval) (session : option nat) (w : World) :
  ∃ tasks,
    dispatch env l session w = (Ok tasks, world_after env session l w)
    ∧ length tasks = length l
    ∧ ∀ before request after,
        l = before ++ request :: after →
        {| task_request := request;
           task_outcome :=
             fst (handleRpcRequest env request session
                    (world_after env session before w)) |} ∈ tasks.
Proof.
  revert w. induction l as [| r rest IH]; intros w.
  - exists []. split; [done|]. split; [done|].
    intros [| b before] request after Heq; discriminate.
  - rewrite dispatch_cons.
    destruct (handleRpcRequest env r session w) as [outcome w1] eqn:Hr.
    destruct (IH w1) as (tasks & Hdispatch & Hlen & Hin). rewrite Hdispatch.
    eexists. split; [|split].
    + unfold world_after. cbn [foldl]. by rewrite Hr.
    + cbn. by rewrite Hlen.
    + intros [| b before] request after Heq.
      * injection Heq as <- <-. unfold world_after. cbn [foldl].
        rewrite Hr. left.
      * injection Heq as <- ->. right. unfold world_after. cbn [foldl].
        rewrite Hr. exact (Hin before request after eq_refl).
Qed.

Lemma existsb_none_negb {A} (p : A → bool) (l : list A) :
  l ≠ [] → existsb p l = false → existsb (λ x, negb (p x)) l = true.
Proof.
  destruct l as [| a l]; [done|]. intros _. cbn.
  by destruct (p a).
Qed.

(** The notifications sent to a live session are taken, and leave the map
    of the sessions as it is. *)
Lemma processNotifications_taken (x : option string) (i : string) (session : nat)
    (l : list jsval) (w : World) :
  Forall nonnull l → or_undefined x = Some i → sessions w !! i = Some session →
  ∃ w1, processNotifications env (Some i) l w = (Ok tt, w1)
        ∧ sessions w1 = sessions w.
Proof.
  intros Hall Hid Hmap. destruct l as [| n rest] eqn:Hl.
  - exists w. by rewrite processNotifications_none.
  - rewrite <- Hl in *.
    rewrite (processNotifications_live env x i session) by (done || by rewrite Hl).
    destruct (notify_all_frame env session l w Hall) as (w1 & -> & Hs & _).
    by exists w1.
Qed.

(** ** Failures stay in their task *)

(** The batches that reach the stream are of two kinds: a lone
    [initialize], whose dispatch returns whatever the session and the
    world; and the batches without an [initialize], sent with the
    identifier of a live session. *)
Lemma streaming_batches (req : HttpRequest) (w w' : World) (messages : list jsval)
    (parts : Partition) (tasks : list task) :
  normalizeMessages env (body req) = Ok messages →
  partitionMessages messages = Ok parts →
  post env req w = (Streaming tasks, w') →
  (∃ request,
     requests parts = [request] ∧ is_initialize request = true
     ∧ ∀ session w0, ∃ result w2,
         handleRpcRequest env request session w0 = (Ok result, w2))
  ∨ (requests parts ≠ []
     ∧ existsb is_initialize (requests parts) = false
     ∧ ∃ i session,
         or_undefined (header_session_id req) = Some i
         ∧ sessions w !! i = Some session).
Proof.
  intros Hbody Hparts Hpost.
  destruct (requests_facts _ _ Hparts) as (_ & Hnots & _).
  destruct (streaming_inv env _ _ _ _ _ _ Hbody Hparts Hpost)
    as (w1 & bound & Hnote & Hne & Hmix & Hbind & _).
  destruct (existsb is_initialize (requests parts)) eqn:Hinit.
  - left. rewrite andb_true_l in Hmix. apply Nat.ltb_ge in Hmix.
    destruct (requests parts) as [| request [| r rest]]; [done| |cbn in Hmix; lia].
    exists request. split; [done|]. cbn in Hinit.
    rewrite orb_false_r in Hinit. split; [done|]. intros session w0.
    destruct (is_initialize_inv _ Hinit) as (fields & -> & Hmethod).
    rewrite (initialize_run env _ _ _ Hmethod). by eexists _, _.
  - right. split; [done|]. split; [done|].
    rewrite (existsb_none_negb _ _ Hne Hinit) in Hbind.
    destruct (processNotifications_ok env _ _ _ _ Hnots Hnote) as (Hsessions & _).
    unfold bind_session in Hbind.
    destruct (or_undefined (header_session_id req)) as [[| c i]|]; try done.
    rewrite (run_lift_ok _ (String c i)) in Hbind by done.
    rewrite run_bind in Hbind. unfold loadSession in Hbind.
    destruct (sessions w1 !! String c i) as [session|] eqn:Hmap; [|done].
    exists (String c i), session. split; [done|]. by rewrite <- Hsessions.
Qed.

(** C5. Take a batch with requests, none of them an [initialize], sent
    with the identifier of a live session (a batch in which a dispatch can
    fail is such a batch: an [initialize] never fails and comes alone).
    Once its notifications are taken the stream is opened, whatever the
    dispatches do, and every request is dispatched, each in the world the
    requests before it have left: the world at the end is the one the last
    dispatch leaves. The stream ends, and whatever the order in which the
    tasks settle the client then reads one event per request. A request
    whose dispatch throws is answered by an error that carries its
    identifier: an [RpcError] keeps its code and message, anything else
    becomes the internal error with the fixed message. Every other request
    is answered by its own event, the result of its own dispatch. *)
Theorem failing_task_is_framed (req : HttpRequest) (w : World)
    (messages : list jsval) (parts : Partition) (i : string) (session : nat) :
  enforceAcceptHeader req = Ok tt → enforceJsonContent req = Ok tt →
  normalizeMessages env (body req) = Ok messages →
  partitionMessages messages = Ok parts →
  requests parts ≠ [] →
  existsb is_initialize (requests parts) = false →
  or_undefined (header_session_id req) = Some i →
  sessions w !! i = Some session →
  ∃ w1 tasks,
    processNotifications env (Some i) (notifications parts) w = (Ok tt, w1)
    ∧ post env req w
      = (Streaming tasks, world_after env (Some session) (requests parts) w1)
    ∧ (∃ st, runs_to (openSseStream tasks) st)
    ∧ ∀ st, runs_to (openSseStream tasks) st →
        length (events st) = length (requests parts)
        ∧ ∀ before request after,
            requests parts = before ++ request :: after →
            match
              fst (handleRpcRequest env request (Some session)
                     (world_after env (Some session) before w1))
            with
            | Ok (result, _) =>
                ResultFrame (printed <$> id_of request) (printed result)
                  ∈ events st
            | Throw (RpcError code message) =>
                ErrorFrame (printed <$> id_of request) code message ∈ events st
            | Throw _ =>
                ErrorFrame (printed <$> id_of request) ErrorCode.InternalError
                  "Internal server error" ∈ events st
            end.
Proof.
  intros Haccept Hcontent Hbody Hparts Hne Hinit Hid Hmap.
  destruct (requests_facts _ _ Hparts) as (Hreqs & Hnots & Hmessages).
  assert (i ≠ "") as Hi.
  { intros ->. by destruct (header_session_id req) as [[| c x]|]. }
  destruct (processNotifications_taken (header_session_id req) i session
              (notifications parts) w Hnots Hid Hmap) as (w1 & Hnote & Hsessions).
  destruct (dispatch_world (requests parts) (Some session) w1)
    as (tasks & Hdispatch & Hlen & Hin).
  exists w1, tasks. split; [done|]. split; [|split].
  - rewrite (post_decoded env req w messages parts) by auto.
    rewrite Hid, run_bind, Hnote.
    rewrite respond_unmixed by (done || by rewrite Hinit).
    rewrite (existsb_none_negb _ _ Hne Hinit), run_bind.
    destruct (bind_session_live true i session w1 Hi) as (bound & -> & Hbound).
    { by rewrite Hsessions. }
    rewrite (Hbound eq_refl), run_bind, Hdispatch. done.
  - exists (drain tasks (openSseStream tasks)). by apply drain_runs.
  - intros st Hrun. apply runs_to_events in Hrun. split.
    + by rewrite Hrun, !length_map.
    + intros before request after Hsplit.
      specialize (Hin before request after Hsplit).
      apply (list_elem_of_fmap_2 frame_of) in Hin.
      apply (list_elem_of_fmap_2 sendSseMessage) in Hin.
      rewrite event_of_task in Hin. cbn [task_outcome task_request] in Hin.
      destruct (fst (handleRpcRequest env request (Some session)
                       (world_after env (Some session) before w1)))
        as [[result newSessionId]|[status m|code m|m]];
        rewrite Hrun; exact Hin.
Qed.

(** ** Events and requests *)


End Wire.

Lemma failing_task_is_framed_witness :
  ∃ tasks w' st,
    post Sample.env (Sample.request (Some "session-0") Sample.batch) Sample.live
    = (Streaming tasks, w')
    ∧ runs_to (openSseStream tasks) st
    ∧ ErrorFrame (Some (JStr "a")) ErrorCode.InternalError "Internal server error"
        ∈ events st
    ∧ ResultFrame (Some (JNum 2)) (JObj ∅) ∈ events st.
Proof.
  destruct (failing_task_is_framed Sample.env
              (Sample.request (Some "session-0") Sample.batch) Sample.live
              [Sample.call "a" "legal_verify_with_api"; Sample.ping;
               Sample.call "b" "legal_think"]
              {| requests := [Sample.call "a" "legal_verify_with_api"; Sample.ping;
                              Sample.call "b" "legal_think"];
                 notifications := []; responses := [] |}
              "session-0" 0%nat)
    as (w1 & tasks & Hnote & Hpost & [st Hrun] & Hframes).
  1-4, 6-8: reflexivity.
  1: discriminate.
  injection Hnote as <-.
  eexists tasks, _, st. split; [exact Hpost|]. split; [exact Hrun|].
  destruct (Hframes st Hrun) as [_ Hall]. split.
  - exact (Hall [] (Sample.call "a" "legal_verify_with_api")
             [Sample.ping; Sample.call "b" "legal_think"] eq_refl).
  - exact (Hall [Sample.call "a" "legal_verify_with_api"] Sample.ping
             [Sample.call "b" "legal_think"] eq_refl).
Defined.



